(** * python-pdfbox: a shallow embedding of [pdfbox/__init__.py]

    The module locates (or downloads and verifies) the PDFBox jar and turns
    method calls into command lines for [java -jar].  The embedding follows
    the source function by function:

    - [Py]        the Python builtins the module relies on
                  ([str.strip], [str(int)], truthiness, [sorted], [" ".join]);
    - [Sha512]    [hashlib.sha512(...).hexdigest()] (FIPS 180-4);
    - [Re]        the three regular expressions and the glob of the module;
    - [Resolver]  [_PDFBoxVersionsParser], [_verify_sha512],
                  [_get_latest_pdfbox_url], [_get_pdfbox_path], [__init__];
    - [Commands]  [extract_text], [split_file], [merge], [pdf_debugger],
                  [to_image], [_run_cmd];
    - [CommandSpec], [CatalogSpec]  the flag lists and the catalog the
                  properties are stated against;
    - [Demo]      a concrete environment for the examples.

    The third-party functions whose code is not part of the package
    ([pkg_resources.parse_version], the codecs, [html.parser]'s tokenizer,
    the network, [sarge]) are fields of the class [Externals].

    Conventions.  A [pathlib.Path] is the string it prints as ([Py.Path]
    builds it from a text).  Text is a string of characters with code
    points below 256, and the character classes ([\d], [\w], whitespace,
    lowercase) are those of Python on these code points.  The file system
    calls the module makes ([mkdir], [open], [write]) succeed: the ways the
    operating system may refuse them are not part of the model. *)

From Stdlib Require Import ZArith List String Ascii Bool Lia.
From Stdlib Require Import Numbers.DecimalString.
From Stdlib Require Strings.Byte.
Import ListNotations.

Set Implicit Arguments.

Local Open Scope list_scope.
Local Open Scope string_scope.

(* ================================================================== *)
(** * Python builtins *)
(* ================================================================== *)

Module Py.

(** Python [bytes]. *)
Definition bytes := list Byte.byte.

Definition byte_val (b : Byte.byte) : Z := Z.of_N (Byte.to_N b).

(** The sum [s1 + s2 + ...] of a list of strings. *)
Fixpoint concat (l : list string) : string :=
  match l with
  | [] => ""
  | s :: l' => s ++ concat l'
  end.

(** [sep.join(l)]. *)
Fixpoint join (sep : string) (l : list string) : string :=
  match l with
  | [] => ""
  | [s] => s
  | s :: l' => s ++ sep ++ join sep l'
  end.

(** [str(n)] for an [int]. *)
Definition str_int (n : Z) : string := NilEmpty.string_of_int (Z.to_int n).

(** Truthiness of the values the module tests with [if x]. *)
Definition truthy_str (s : string) : bool :=
  match s with "" => false | _ => true end.

Definition truthy_int (n : Z) : bool := negb (Z.eqb n 0).

Definition truthy_list {A} (l : list A) : bool :=
  match l with [] => false | _ => true end.

(** [None] is falsy; otherwise the truthiness of the value. *)
Definition truthy_opt {A} (t : A -> bool) (o : option A) : bool :=
  match o with None => false | Some a => t a end.

(** Characters [str.strip()] removes, which are those [str.isspace] accepts:
    below 256 these are TAB, LF, VT, FF, CR, FS, GS, RS, US, the space,
    U+0085 and U+00A0. *)
Definition is_space (c : ascii) : bool :=
  let n := nat_of_ascii c in
  ((9 <=? n) && (n <=? 13) || (28 <=? n) && (n <=? 32) || (n =? 133) || (n =? 160))%nat.

Fixpoint lstrip (p : ascii -> bool) (s : string) : string :=
  match s with
  | String c s' => if p c then lstrip p s' else s
  | "" => ""
  end.

(** Drops the longest suffix whose characters all satisfy [p]. *)
Fixpoint rstrip (p : ascii -> bool) (s : string) : string :=
  match s with
  | "" => ""
  | String c s' =>
      match rstrip p s' with
      | "" => if p c then "" else String c ""
      | r => String c r
      end
  end.

(** [s.strip()] *)
Definition strip (s : string) : string := rstrip is_space (lstrip is_space s).

(** [s.strip(chars)] for a one-character [chars]. *)
Definition strip_char (c : ascii) (s : string) : string :=
  rstrip (Ascii.eqb c) (lstrip (Ascii.eqb c) s).

(** [s.lower()]: below 256 the letters A to Z and U+00C0 to U+00DE, the
    multiplication sign U+00D7 apart, have a lowercase 32 places further. *)
Definition lower_char (c : ascii) : ascii :=
  let n := nat_of_ascii c in
  if ((65 <=? n) && (n <=? 90) || (192 <=? n) && (n <=? 222) && negb (n =? 215))%nat
  then ascii_of_nat (n + 32) else c.

Fixpoint lower (s : string) : string :=
  match s with
  | "" => ""
  | String c s' => String (lower_char c) (lower s')
  end.

(** [s.startswith(p)], returning the rest of [s] after [p]. *)
Fixpoint strip_prefix (p s : string) : option string :=
  match p, s with
  | "", _ => Some s
  | String a p', String b s' =>
      if Ascii.eqb a b then strip_prefix p' s' else None
  | String _ _, "" => None
  end.

Definition startswith (p s : string) : bool :=
  match strip_prefix p s with Some _ => true | None => false end.

(** The text before the last slash of [p] and the text after it. *)
Fixpoint split_last (p : string) : option (string * string) :=
  match p with
  | "" => None
  | String c p' =>
      match split_last p' with
      | Some (d, n) => Some (String c d, n)
      | None => if Ascii.eqb c "/" then Some ("", p') else None
      end
  end.

(** The components of a path: the texts between its slashes. *)
Fixpoint components (s : string) (cur : string) : list string :=
  match s with
  | "" => [cur]
  | String c s' =>
      if Ascii.eqb c "/" then cur :: components s' ""
      else components s' (cur ++ String c "")
  end.

(** [str(pathlib.Path(s))] on a POSIX system: empty components and [.]
    components are dropped, the root is [//] for exactly two leading
    slashes and [/] for any other number of them, and the path without
    root and components is [.]. *)
Definition Path (s : string) : string :=
  let parts := filter (fun c => negb (String.eqb c "" || String.eqb c "."))
                      (components s "") in
  let root :=
    match s with
    | String "/" (String "/" (String "/" _)) => "/"
    | String "/" (String "/" _) => "//"
    | String "/" _ => "/"
    | _ => ""
    end in
  match root, parts with
  | "", [] => "."
  | _, _ => root ++ join "/" parts
  end.

(** [str(pathlib.Path(p).parent)] for a path [p] as [Path] prints it. *)
Definition parent (p : string) : string :=
  match split_last p with
  | None => "."
  | Some (d, n) =>
      match n, d with
      | "", _ => p
      | _, "" => "/"
      | _, "/" => "//"
      | _, _ => d
      end
  end.

(** [l[-1]], which raises [IndexError] ([None] here) on an empty list. *)
Fixpoint last_opt {A} (l : list A) : option A :=
  match l with
  | [] => None
  | [x] => Some x
  | _ :: l' => last_opt l'
  end.

Section Sorted.
Variables (A K : Type) (le : K -> K -> bool).

(** Insertion of a keyed element in front of the first element whose key
    is not strictly smaller: equal keys keep their relative order. *)
Fixpoint insert_keyed (x : A * K) (l : list (A * K)) : list (A * K) :=
  match l with
  | [] => [x]
  | y :: l' =>
      if le (snd x) (snd y) then x :: y :: l'
      else y :: insert_keyed x l'
  end.

(** The stable sort of a list of keyed elements. *)
Fixpoint sort_keyed (l : list (A * K)) : list (A * K) :=
  match l with
  | [] => []
  | x :: l' => insert_keyed x (sort_keyed l')
  end.

(** The keys are computed for every element before anything is compared,
    as [sorted] does; the first key that raises aborts the call. *)
Fixpoint decorate (E : Type) (key : A -> E + K) (l : list A)
  : E + list (A * K) :=
  match l with
  | [] => inr []
  | x :: l' =>
      match key x with
      | inl e => inl e
      | inr k =>
          match decorate key l' with
          | inl e => inl e
          | inr d => inr ((x, k) :: d)
          end
      end
  end.

(** [m] is the last element of [l] and no key of [l] is above its key. *)
Definition last_max (l : list (A * K)) (m : A * K) : Prop :=
  last_opt l = Some m /\ forall y, In y l -> le (snd y) (snd m) = true.

(** [sorted(l, key=key)] *)
Definition sorted (E : Type) (key : A -> E + K) (l : list A) : E + list A :=
  match decorate key l with
  | inl e => inl e
  | inr d => inr (map fst (sort_keyed d))
  end.
End Sorted.

End Py.

(* ================================================================== *)
(** * SHA-512 ([hashlib.sha512]) *)
(* ================================================================== *)

Module Sha512.
Local Open Scope Z_scope.

Definition w64 (x : Z) : Z := x mod 2 ^ 64.
Definition add64 (x y : Z) : Z := w64 (x + y).
Definition rotr (n x : Z) : Z :=
  Z.lor (Z.shiftr x n) (w64 (Z.shiftl x (64 - n))).
Definition shr (n x : Z) : Z := Z.shiftr x n.
Definition not64 (x : Z) : Z := Z.lxor x (2 ^ 64 - 1).

Definition Ch (x y z : Z) : Z := Z.lxor (Z.land x y) (Z.land (not64 x) z).
Definition Maj (x y z : Z) : Z :=
  Z.lxor (Z.lxor (Z.land x y) (Z.land x z)) (Z.land y z).
Definition Sigma0 (x : Z) : Z := Z.lxor (Z.lxor (rotr 28 x) (rotr 34 x)) (rotr 39 x).
Definition Sigma1 (x : Z) : Z := Z.lxor (Z.lxor (rotr 14 x) (rotr 18 x)) (rotr 41 x).
Definition sigma0 (x : Z) : Z := Z.lxor (Z.lxor (rotr 1 x) (rotr 8 x)) (shr 7 x).
Definition sigma1 (x : Z) : Z := Z.lxor (Z.lxor (rotr 19 x) (rotr 61 x)) (shr 6 x).

Definition H0 : list Z :=
  [ 0x6a09e667f3bcc908; 0xbb67ae8584caa73b; 0x3c6ef372fe94f82b; 0xa54ff53a5f1d36f1;
    0x510e527fade682d1; 0x9b05688c2b3e6c1f; 0x1f83d9abfb41bd6b; 0x5be0cd19137e2179 ].

Definition K : list Z :=
  [ 0x428a2f98d728ae22; 0x7137449123ef65cd; 0xb5c0fbcfec4d3b2f; 0xe9b5dba58189dbbc;
    0x3956c25bf348b538; 0x59f111f1b605d019; 0x923f82a4af194f9b; 0xab1c5ed5da6d8118;
    0xd807aa98a3030242; 0x12835b0145706fbe; 0x243185be4ee4b28c; 0x550c7dc3d5ffb4e2;
    0x72be5d74f27b896f; 0x80deb1fe3b1696b1; 0x9bdc06a725c71235; 0xc19bf174cf692694;
    0xe49b69c19ef14ad2; 0xefbe4786384f25e3; 0x0fc19dc68b8cd5b5; 0x240ca1cc77ac9c65;
    0x2de92c6f592b0275; 0x4a7484aa6ea6e483; 0x5cb0a9dcbd41fbd4; 0x76f988da831153b5;
    0x983e5152ee66dfab; 0xa831c66d2db43210; 0xb00327c898fb213f; 0xbf597fc7beef0ee4;
    0xc6e00bf33da88fc2; 0xd5a79147930aa725; 0x06ca6351e003826f; 0x142929670a0e6e70;
    0x27b70a8546d22ffc; 0x2e1b21385c26c926; 0x4d2c6dfc5ac42aed; 0x53380d139d95b3df;
    0x650a73548baf63de; 0x766a0abb3c77b2a8; 0x81c2c92e47edaee6; 0x92722c851482353b;
    0xa2bfe8a14cf10364; 0xa81a664bbc423001; 0xc24b8b70d0f89791; 0xc76c51a30654be30;
    0xd192e819d6ef5218; 0xd69906245565a910; 0xf40e35855771202a; 0x106aa07032bbd1b8;
    0x19a4c116b8d2d0c8; 0x1e376c085141ab53; 0x2748774cdf8eeb99; 0x34b0bcb5e19b48a8;
    0x391c0cb3c5c95a63; 0x4ed8aa4ae3418acb; 0x5b9cca4f7763e373; 0x682e6ff3d6b2b8a3;
    0x748f82ee5defb2fc; 0x78a5636f43172f60; 0x84c87814a1f0ab72; 0x8cc702081a6439ec;
    0x90befffa23631e28; 0xa4506cebde82bde9; 0xbef9a3f7b2c67915; 0xc67178f2e372532b;
    0xca273eceea26619c; 0xd186b8c721c0c207; 0xeada7dd6cde0eb1e; 0xf57d4f7fee6ed178;
    0x06f067aa72176fba; 0x0a637dc5a2c898a6; 0x113f9804bef90dae; 0x1b710b35131c471b;
    0x28db77f523047d84; 0x32caab7b40c72493; 0x3c9ebe0a15c9bebc; 0x431d67c49c100d4c;
    0x4cc5d4becb3e42b6; 0x597f299cfc657e2a; 0x5fcb6fab3ad6faec; 0x6c44198c4a475817 ].

Definition is_byte (b : Z) : Prop := 0 <= b < 256.

(** Big-endian value of a list of bytes. *)
Definition be_value (bs : list Z) : Z :=
  fold_left (fun acc b => acc * 256 + b) bs 0.

(** The [n] low bytes of [x], most significant first. *)
Fixpoint be_bytes (n : nat) (x : Z) : list Z :=
  match n with
  | O => []
  | S n' => be_bytes n' (x / 256) ++ [x mod 256]
  end.

(** Padding: a [0x80] byte, zeros up to 112 modulo 128, then the bit length
    on 128 bits. *)
Definition pad (msg : list Z) : list Z :=
  let len := Z.of_nat (List.length msg) in
  let zeros := Z.to_nat ((111 - len) mod 128) in
  msg ++ [0x80] ++ repeat 0 zeros ++ be_bytes 16 (8 * len).

(** Cuts a list into chunks of [n] elements ([fuel] bounds the number of
    chunks). *)
Fixpoint chunks {A} (fuel n : nat) (l : list A) : list (list A) :=
  match fuel, l with
  | O, _ => []
  | _, [] => []
  | S fuel', _ => firstn n l :: chunks fuel' n (skipn n l)
  end.

(** Message schedule, built most recent word first. *)
Fixpoint extend (n : nat) (ws : list Z) : list Z :=
  match n with
  | O => ws
  | S n' =>
      let w := add64 (add64 (sigma1 (nth 1 ws 0)) (nth 6 ws 0))
                     (add64 (sigma0 (nth 14 ws 0)) (nth 15 ws 0)) in
      extend n' (w :: ws)
  end.

Definition schedule (block : list Z) : list Z :=
  rev (extend 64 (rev (map be_value (chunks 16 8 block)))).

Record regs := Regs { ra : Z; rb : Z; rc : Z; rd : Z; re : Z; rf : Z; rg : Z; rh : Z }.

Definition round (r : regs) (kw : Z * Z) : regs :=
  let t1 := add64 (add64 (add64 (rh r) (Sigma1 (re r)))
                         (add64 (Ch (re r) (rf r) (rg r)) (fst kw))) (snd kw) in
  let t2 := add64 (Sigma0 (ra r)) (Maj (ra r) (rb r) (rc r)) in
  Regs (add64 t1 t2) (ra r) (rb r) (rc r) (add64 (rd r) t1) (re r) (rf r) (rg r).

Definition compress (h : regs) (block : list Z) : regs :=
  let r := fold_left round (combine K (schedule block)) h in
  Regs (add64 (ra h) (ra r)) (add64 (rb h) (rb r)) (add64 (rc h) (rc r))
       (add64 (rd h) (rd r)) (add64 (re h) (re r)) (add64 (rf h) (rf r))
       (add64 (rg h) (rg r)) (add64 (rh h) (rh r)).

Definition init : regs :=
  Regs (nth 0 H0 0) (nth 1 H0 0) (nth 2 H0 0) (nth 3 H0 0)
       (nth 4 H0 0) (nth 5 H0 0) (nth 6 H0 0) (nth 7 H0 0).

(** The 64 bytes of the digest. *)
Definition digest (data : Py.bytes) : list Z :=
  let p := pad (map Py.byte_val data) in
  let r := fold_left compress (chunks (S (List.length p)) 128 p) init in
  flat_map (be_bytes 8) [ra r; rb r; rc r; rd r; re r; rf r; rg r; rh r].

Definition hex_digit (n : Z) : ascii :=
  if n <? 10 then ascii_of_N (Z.to_N (48 + n)) else ascii_of_N (Z.to_N (87 + n)).

Fixpoint hex_of_bytes (bs : list Z) : string :=
  match bs with
  | [] => ""
  | b :: bs' => String (hex_digit (b / 16)) (String (hex_digit (b mod 16)) (hex_of_bytes bs'))
  end.

(** [hashlib.sha512(data).hexdigest()]: 128 lowercase hexadecimal digits. *)
Definition hexdigest (data : Py.bytes) : string := hex_of_bytes (digest data).

End Sha512.

Definition bytes_of_string (s : string) : Py.bytes := list_byte_of_string s.

(* ================================================================== *)
(** * Regular expressions ([re]) and the glob of the module *)
(* ================================================================== *)

Module Re.

(** The fragment of [re] the module uses: literals, repetition of a
    character class, sequencing and capturing groups.  Matching is the
    backtracking search of [re]: repetitions are greedy and give characters
    back one at a time; [search] returns the leftmost match. *)
Inductive regex :=
| Lit (s : string)
| Plus (p : ascii -> bool)
| Star (p : ascii -> bool)
| Seq (r1 r2 : regex)
| Group (r : regex).

Definition cont := string -> list string -> option (list string).

Fixpoint greedy_star (p : ascii -> bool) (s : string) (k : string -> option (list string))
  : option (list string) :=
  match s with
  | String c s' =>
      if p c then
        match greedy_star p s' k with
        | Some r => Some r
        | None => k s
        end
      else k s
  | "" => k ""
  end.

Definition greedy_plus (p : ascii -> bool) (s : string) (k : string -> option (list string))
  : option (list string) :=
  match s with
  | String c s' => if p c then greedy_star p s' k else None
  | "" => None
  end.

(** The first [length s - length rest] characters of [s]. *)
Definition consumed (s rest : string) : string :=
  substring 0 (String.length s - String.length rest) s.

Fixpoint run (r : regex) (s : string) (caps : list string) (k : cont)
  : option (list string) :=
  match r with
  | Lit l =>
      match Py.strip_prefix l s with
      | Some rest => k rest caps
      | None => None
      end
  | Plus p => greedy_plus p s (fun rest => k rest caps)
  | Star p => greedy_star p s (fun rest => k rest caps)
  | Seq r1 r2 => run r1 s caps (fun rest caps' => run r2 rest caps' k)
  | Group r' => run r' s caps (fun rest caps' => k rest (caps' ++ [consumed s rest])%list)
  end.

(** [re.match(r, s)]: the groups of the match at the start of [s]. *)
Definition match_ (r : regex) (s : string) : option (list string) :=
  run r s [] (fun _ caps => Some caps).

(** [re.fullmatch(r, s)] *)
Definition fullmatch (r : regex) (s : string) : option (list string) :=
  run r s [] (fun rest caps => match rest with "" => Some caps | _ => None end).

(** [re.search(r, s)]: the groups of the leftmost match. *)
Fixpoint search (r : regex) (s : string) : option (list string) :=
  match match_ r s with
  | Some caps => Some caps
  | None =>
      match s with
      | "" => None
      | String _ s' => search r s'
      end
  end.

(** [\d], [\w], [.] and the class [[\w\.\-]] on characters below 256:
    [\d] is the ten digits; [\w] is the digits, the letters, the underscore
    and the characters above 127 that [str.isalnum] accepts. *)
Definition digit (c : ascii) : bool :=
  let n := nat_of_ascii c in ((48 <=? n) && (n <=? 57))%nat.

Definition word (c : ascii) : bool :=
  let n := nat_of_ascii c in
  (digit c || (65 <=? n) && (n <=? 90) || (97 <=? n) && (n <=? 122) || (n =? 95)
   || (n =? 170) || (n =? 178) || (n =? 179) || (n =? 181) || (n =? 185) || (n =? 186)
   || (188 <=? n) && (n <=? 190)
   || (192 <=? n) && (n <=? 214) || (216 <=? n) && (n <=? 246) || (248 <=? n))%nat.

Definition dot (c : ascii) : bool := negb (nat_of_ascii c =? 10)%nat.

Definition any (c : ascii) : bool := true.

Definition word_dot_dash (c : ascii) : bool :=
  (word c || Ascii.eqb c "." || Ascii.eqb c "-")%char.

(** ['\d+\.\d+\.\d+.*'] *)
Definition version_re : regex :=
  Seq (Plus digit) (Seq (Lit ".") (Seq (Plus digit) (Seq (Lit ".")
    (Seq (Plus digit) (Star dot))))).

(** ['pdfbox-app-([\w\.\-]+)\.jar'] *)
Definition jar_re : regex :=
  Seq (Lit "pdfbox-app-") (Seq (Group (Plus word_dot_dash)) (Lit ".jar")).

(** The glob ['pdfbox-app-*.jar'], matched against a whole file name. *)
Definition jar_glob : regex :=
  Seq (Lit "pdfbox-app-") (Seq (Star any) (Lit ".jar")).

Definition glob_match (name : string) : bool :=
  match fullmatch jar_glob name with Some _ => true | None => false end.

End Re.

(* ================================================================== *)
(** * The world the module runs in *)
(* ================================================================== *)

(** Exceptions the module raises or lets through.  [URLError] stands for
    whatever [urlopen] raises, [OSError] for whatever [sarge] raises when it
    cannot read the command line or start the program. *)
Inductive exn :=
| RuntimeError (msg : string)
| URLError
| UnicodeDecodeError
| InvalidVersion
| AttributeError
| IndexError
| OSError.

(** Effects, in the order they happen. *)
Inductive event :=
| EExists (path : string)
| EGlob (dir : string)
| EUrlOpen (url : string)
| EMkdir (dir : string)
| EWrite (path : string)
| EWhich (prog : string)
| EPrint (line : string)
| ESpawn (cmd : string).

Inductive node :=
| Dir
| File (content : Py.bytes).

(** The environment variables, the cache directory
    ([pathlib.Path(appdirs.AppDirs('python-pdfbox').user_cache_dir)], as it
    prints), the file system (paths in directory-listing order), what
    [shutil.which] finds for [java], and the effects performed so far.
    [ESpawn cmd] records that the command line [cmd] was handed to [sarge]. *)
Record World := mkWorld {
  environ : list (string * string);
  user_cache_dir : string;
  fs : list (string * node);
  which_java : option string;
  trace : list event
}.

(** What [urllib.request.urlopen] returns: [r.read()] ([None] when it
    raises) and the charset of the [Content-Type] header. *)
Record response := mkResponse {
  read : option Py.bytes;
  content_charset : option string
}.

(** A start tag as [HTMLParser] hands it to [handle_starttag]. *)
Definition starttag : Type := string * list (string * option string).

(** The library functions the module calls. *)
Class Externals := {
  (** [pkg_resources.parse_version] ([None]: it raises) and [<=] on its results *)
  version : Type;
  parse_version : string -> option version;
  version_le : version -> version -> bool;
  (** [data.decode(encoding)] ([None]: it raises) *)
  decode : string -> Py.bytes -> option string;
  (** the start tags [HTMLParser.feed] reports for a document *)
  starttags : string -> list starttag;
  (** [urllib.request.urlopen(url)] ([None]: it raises) *)
  urlopen : string -> option response;
  (** whether [sarge] reads the command line and starts the program
      ([false]: it raises) *)
  sarge_starts : string -> bool
}.

(** State and exceptions: a computation returns its outcome together with
    the world it leaves, also when it raises. *)
Definition M (A : Type) : Type := World -> (exn + A) * World.

Definition ret {A} (a : A) : M A := fun w => (inr a, w).
Definition raise {A} (e : exn) : M A := fun w => (inl e, w).
Definition bind {A B} (m : M A) (k : A -> M B) : M B :=
  fun w => match m w with
           | (inl e, w') => (inl e, w')
           | (inr a, w') => k a w'
           end.
Definition lift {A} (r : exn + A) : M A := fun w => (r, w).
Definition gets {A} (f : World -> A) : M A := fun w => (inr (f w), w).

Notation "x <- m ;; k" := (bind m (fun x => k))
  (at level 61, m at next level, right associativity).
Notation "m ;;; k" := (bind m (fun _ => k))
  (at level 61, right associativity).

(** The world after one more effect. *)
Definition record (e : event) (w : World) : World :=
  mkWorld (environ w) (user_cache_dir w) (fs w) (which_java w) (trace w ++ [e]).

Definition emit (e : event) : M unit := fun w => (inr tt, record e w).

Definition set_fs (f : list (string * node)) : M unit :=
  fun w => (inr tt, mkWorld (environ w) (user_cache_dir w) f (which_java w) (trace w)).

Fixpoint lookup {A} (k : string) (l : list (string * A)) : option A :=
  match l with
  | [] => None
  | (k', v) :: l' => if String.eqb k k' then Some v else lookup k l'
  end.

(** [open(path, 'wb').write(data)]: the file is created or overwritten. *)
Fixpoint store (path : string) (n : node) (l : list (string * node))
  : list (string * node) :=
  match l with
  | [] => [(path, n)]
  | (p, n') :: l' =>
      if String.eqb path p then (p, n) :: l' else (p, n') :: store path n l'
  end.

Definition present (p : string) (f : list (string * node)) : bool :=
  match lookup p f with
  | Some _ => true
  | None => false
  end.

(** The last component of a path that does not end with a slash
    ([pathlib.Path(p).name]). *)
Fixpoint basename (p : string) : string :=
  match p with
  | "" => ""
  | String c p' =>
      if existsb (Ascii.eqb "/") (list_ascii_of_string p')
      then basename p'
      else if Ascii.eqb c "/" then p' else p
  end.

(** The entries directly inside [dir]. *)
Definition entry_name (dir path : string) : option string :=
  match Py.strip_prefix (dir ++ "/") path with
  | Some name =>
      if Py.truthy_str name && negb (existsb (Ascii.eqb "/") (list_ascii_of_string name))
      then Some name else None
  | None => None
  end.

Definition listdir (dir : string) (f : list (string * node)) : list string :=
  flat_map (fun e => match entry_name dir (fst e) with
                     | Some n => [n]
                     | None => []
                     end) f.

(** [pathlib.Path.exists] and [os.path.exists] *)
Definition path_exists (p : string) : M bool :=
  emit (EExists p) ;;;
  gets (fun w => present p (fs w)).

(** The paths of the entries of [dir] that match ['pdfbox-app-*.jar']. *)
Definition jars_in (dir : string) (f : list (string * node)) : list string :=
  map (fun n => (dir ++ "/" ++ n)%string) (filter Re.glob_match (listdir dir f)).

(** [list(cache_dir.glob('pdfbox-app-*.jar'))] *)
Definition glob_jars (dir : string) : M (list string) :=
  emit (EGlob dir) ;;;
  gets (fun w => jars_in dir (fs w)).

(** The directories [Path(p).mkdir(parents=True)] creates, outermost first:
    [p] itself, after its parent and so on upwards as long as they are
    missing; a root is never missing. *)
Fixpoint made_dirs (fuel : nat) (p : string) (f : list (string * node)) : list string :=
  match fuel with
  | O => [p]
  | S fuel' =>
      let q := Py.parent p in
      if String.eqb (Py.parent q) q || present q f then [p]
      else (made_dirs fuel' q f ++ [p])%list
  end.

(** [cache_dir.mkdir(parents=True)] *)
Definition mkdir (dir : string) : M unit :=
  emit (EMkdir dir) ;;;
  f <- gets fs ;;
  set_fs (f ++ map (fun q => (q, Dir)) (made_dirs (String.length dir) dir f))%list.

Definition write_file (path : string) (data : Py.bytes) : M unit :=
  emit (EWrite path) ;;;
  f <- gets fs ;;
  set_fs (store path (File data) f).

(** The URLs opened so far. *)
Definition requests (w : World) : list string :=
  flat_map (fun e => match e with EUrlOpen u => [u] | _ => [] end) (trace w).


(** The command lines handed to [sarge] so far. *)
Definition spawned (w : World) : list string :=
  flat_map (fun e => match e with ESpawn c => [c] | _ => [] end) (trace w).

(** The lines printed so far. *)
Definition printed (w : World) : list string :=
  flat_map (fun e => match e with EPrint l => [l] | _ => [] end) (trace w).

(* ================================================================== *)
(** * Locating the jar *)
(* ================================================================== *)

Module Resolver.
Section WithExternals.
Context {X : Externals}.

Definition pdfbox_archive_url : string := "https://archive.apache.org/dist/pdfbox/".

Definition do_urlopen (url : string) : M response :=
  emit (EUrlOpen url) ;;;
  match urlopen url with
  | Some r => ret r
  | None => raise URLError
  end.

(** [_PDFBoxVersionsParser.handle_starttag], on the list [self.result]. *)
Fixpoint handle_attrs (attrs : list (string * option string)) (result : list string)
  : exn + list string :=
  match attrs with
  | [] => inr result
  | (name, value) :: attrs' =>
      if String.eqb name "href" then
        match value with
        | None => inl AttributeError
        | Some v =>
            let s := Py.strip_char "/" v in
            match Re.search Re.version_re s with
            | Some _ => handle_attrs attrs' (result ++ [s])%list
            | None => handle_attrs attrs' result
            end
        end
      else handle_attrs attrs' result
  end.

Definition handle_starttag (t : starttag) (result : list string) : exn + list string :=
  if String.eqb (fst t) "a" then handle_attrs (snd t) result else inr result.

Fixpoint handle_all (ts : list starttag) (result : list string) : exn + list string :=
  match ts with
  | [] => inr result
  | t :: ts' =>
      match handle_starttag t result with
      | inl e => inl e
      | inr result' => handle_all ts' result'
      end
  end.

(** [_PDFBoxVersionsParser.feed]: [self.result] after the document. *)
Definition feed (data : string) : exn + list string :=
  handle_all (starttags data) [].

(** [_verify_sha512] *)
Definition _verify_sha512 (data : Py.bytes) (digest : string) : bool :=
  String.eqb (Sha512.hexdigest data) digest.

(** The key [pkg_resources.parse_version] of the sort. *)
Definition version_key (s : string) : exn + version :=
  match parse_version s with
  | Some v => inr v
  | None => inl InvalidVersion
  end.

(** [sorted(l, key=key)[-1]] *)
Definition latest {A} (key : A -> exn + version) (l : list A) : exn + A :=
  match Py.sorted version_le key l with
  | inl e => inl e
  | inr s =>
      match Py.last_opt s with
      | Some x => inr x
      | None => inl IndexError
      end
  end.

(** [sorted(p.result, key=pkg_resources.parse_version)[-1]] *)
Definition latest_version (result : list string) : exn + string :=
  latest version_key result.

Definition artifact_url (v : string) : string :=
  pdfbox_archive_url ++ v ++ "/pdfbox-app-" ++ v ++ ".jar".

Definition _get_latest_pdfbox_url : M string :=
  r <- do_urlopen pdfbox_archive_url ;;
  data <- match read r with
          | None => raise (RuntimeError ("error retrieving " ++ pdfbox_archive_url))
          | Some d =>
              match decode "utf-8" d with
              | Some t => ret t
              | None => raise UnicodeDecodeError
              end
          end ;;
  result <- lift (feed data) ;;
  latest_v <- lift (latest_version result) ;;
  ret (artifact_url latest_v).

(** The key [f] of the cache scan: the version embedded in the file name. *)
Definition f (path : string) : exn + version :=
  match Re.search Re.jar_re (basename path) with
  | Some (v :: _) => version_key v
  | _ => inl AttributeError
  end.

Definition _get_pdfbox_path : M string :=
  env <- gets environ ;;
  match lookup "PDFBOX" env with
  | Some value =>
      let pdfbox_path := Py.Path value in
      ex <- path_exists pdfbox_path ;;
      if ex then ret pdfbox_path else raise (RuntimeError "pdfbox not found")
  | None =>
      cache_dir <- gets user_cache_dir ;;
      file_list <- glob_jars cache_dir ;;
      if Py.truthy_list file_list then
        lift (latest f file_list)
      else
        pdfbox_url <- _get_latest_pdfbox_url ;;
        let sha512_url := pdfbox_url ++ ".sha512" in
        r <- do_urlopen pdfbox_url ;;
        data <- match read r with
                | None => raise (RuntimeError ("error retrieving " ++ pdfbox_url))
                | Some d => ret d
                end ;;
        ex <- path_exists cache_dir ;;
        (if ex then ret tt else mkdir cache_dir) ;;;
        let pdfbox_path := cache_dir ++ "/" ++ basename pdfbox_url in
        write_file pdfbox_path data ;;;
        r <- do_urlopen sha512_url ;;
        let encoding := match content_charset r with
                        | Some c => c
                        | None => "utf-8"
                        end in
        sha512 <- match read r with
                  | None => raise (RuntimeError "error retrieving sha512sum")
                  | Some d =>
                      match decode encoding d with
                      | Some t => ret (Py.strip t)
                      | None => raise (RuntimeError "error retrieving sha512sum")
                      end
                  end ;;
        if _verify_sha512 data sha512 then ret pdfbox_path
        else raise (RuntimeError "failed to verify sha512sum")
  end.

(** The attributes [__init__] sets. *)
Record PDFBox := mkPDFBox { pdfbox_path : string; java_path : string }.

Definition __init__ : M PDFBox :=
  p <- _get_pdfbox_path ;;
  emit (EWhich "java") ;;;
  j <- gets which_java ;;
  match j with
  | Some jp => if Py.truthy_str jp then ret (mkPDFBox p jp)
               else raise (RuntimeError "java not found")
  | None => raise (RuntimeError "java not found")
  end.

End WithExternals.
End Resolver.

(* ================================================================== *)
(** * Building and running the command lines *)
(* ================================================================== *)

Module Commands.
Section WithExternals.
Context {X : Externals}.

Import Resolver.

(** A keyword argument the caller did not pass takes its default. *)
Definition arg {A} (default : A) (passed : option A) : A :=
  match passed with
  | Some a => a
  | None => default
  end.

(** [print] *)
Definition print (line : string) : M unit := emit (EPrint line).

(** [sarge.run(cmd, ..., async_=True)] and [sarge.capture_both(cmd, async_=True)]:
    the command line is handed to [sarge], which starts the program and
    returns without waiting for it, or raises. *)
Definition spawn (cmd : string) : M unit :=
  emit (ESpawn cmd) ;;;
  if sarge_starts cmd then ret tt else raise OSError.

(** [_run_cmd]: the message, the command line, [sarge.run], and
    [p.close()], which closes the captures of the pipeline and changes
    nothing the world records. *)
Definition _run_cmd (cmd : string) : M unit :=
  print "PDFBox is running command: " ;;;
  print cmd ;;;
  spawn cmd.

(** ** [extract_text] *)

Record extract_text_kwargs := {
  et_output_path : option string;
  et_password : option (option string);
  et_encoding : option (option string);
  et_html : option bool;
  et_sort : option bool;
  et_ignore_beads : option bool;
  et_start_page : option (option Z);
  et_end_page : option (option Z);
  et_always_next : option bool
  }.

(** What [extract_text] returns: [p.stdout.text], the text captured from
    the standard output of the pipeline started for [cmd] as it is read
    right after the start, or the pipeline [p] itself.  What the text holds
    at that moment is decided by [sarge] and the child process. *)
Inductive extract_text_result :=
| StdoutText (cmd : string)
| Pipeline (cmd : string).

(** The eight parenthesised terms of lines 163-170, in that order. *)
Definition extract_text_terms (kw : extract_text_kwargs) : list string :=
  let password := arg None (et_password kw) in
  let encoding := arg None (et_encoding kw) in
  let html := arg false (et_html kw) in
  let sort := arg false (et_sort kw) in
  let ignore_beads := arg false (et_ignore_beads kw) in
  let start_page := arg (Some 1%Z) (et_start_page kw) in
  let end_page := arg None (et_end_page kw) in
  let always_next := arg false (et_always_next kw) in
  [ match password with
    | Some v => if Py.truthy_str v then " -password " ++ v else ""
    | None => "" end;
    match encoding with
    | Some v => if Py.truthy_str v then " -encoding " ++ v else ""
    | None => "" end;
    if html then " -html" else "";
    if sort then " -sort" else "";
    if ignore_beads then " -ignoreBeads" else "";
    match start_page with
    | Some n => if Py.truthy_int n then " -startPage " ++ Py.str_int n else ""
    | None => "" end;
    match end_page with
    | Some n => if Py.truthy_int n then " -endPage " ++ Py.str_int n else ""
    | None => "" end;
    if always_next then " -alwaysNext" else "" ].

(** Their sum, the value first assigned to [options]. *)
Definition extract_text_flag_options (kw : extract_text_kwargs) : string :=
  Py.concat (extract_text_terms kw).

(** [options] after the [if not output_path] of line 171. *)
Definition extract_text_options (kw : extract_text_kwargs) : string :=
  let output_path := arg "" (et_output_path kw) in
  let options := extract_text_flag_options kw in
  if negb (Py.truthy_str output_path) then options ++ " -console" else options.

Definition extract_text_cmd (self : PDFBox) (input_path : string)
           (kw : extract_text_kwargs) : string :=
  java_path self ++ " -jar " ++ pdfbox_path self ++ " ExtractText " ++
  extract_text_options kw ++ " " ++ input_path ++ " " ++ arg "" (et_output_path kw).

Definition extract_text (self : PDFBox) (input_path : string)
           (kw : extract_text_kwargs) : M extract_text_result :=
  let output_path := arg "" (et_output_path kw) in
  let cmd := extract_text_cmd self input_path kw in
  print "PDFBox is running command: " ;;;
  print cmd ;;;
  spawn cmd ;;;
  if negb (Py.truthy_str output_path) then ret (StdoutText cmd)
  else ret (Pipeline cmd).

(** ** [split_file] *)

Record split_file_kwargs := {
  sf_password : option (option string);
  sf_split : option (option Z);
  sf_start_page : option (option Z);
  sf_end_page : option (option Z)
  }.

Definition split_file_terms (kw : split_file_kwargs) : list string :=
  let password := arg None (sf_password kw) in
  let split := arg None (sf_split kw) in
  let start_page := arg None (sf_start_page kw) in
  let end_page := arg None (sf_end_page kw) in
  [ match password with
    | Some v => if Py.truthy_str v then " -password " ++ v else ""
    | None => "" end;
    match start_page with
    | Some n => if Py.truthy_int n then " -startPage " ++ Py.str_int n else ""
    | None => "" end;
    match end_page with
    | Some n => if Py.truthy_int n then " -endPage " ++ Py.str_int n else ""
    | None => "" end;
    match split with
    | Some n => if Py.truthy_int n then " -split " ++ Py.str_int n else ""
    | None => "" end ].

Definition split_file_options (kw : split_file_kwargs) : string :=
  Py.concat (split_file_terms kw).

Definition split_file_cmd (self : PDFBox) (input_path : string)
           (kw : split_file_kwargs) : string :=
  java_path self ++ " -jar " ++ pdfbox_path self ++ " PDFSplit " ++
  split_file_options kw ++ " " ++ input_path.

Definition split_file (self : PDFBox) (input_path : string)
           (kw : split_file_kwargs) : M unit :=
  _run_cmd (split_file_cmd self input_path kw).

(** ** [merge] *)

Record merge_kwargs := {
  mg_source_files : option (list string);
  mg_target_file : option string
  }.

Definition merge_cmd (self : PDFBox) (kw : merge_kwargs) : string :=
  java_path self ++ " -jar " ++ pdfbox_path self ++ " PDFMerger " ++
  Py.join " " (arg [] (mg_source_files kw)) ++ " " ++
  arg "merged.pdf" (mg_target_file kw).

Definition merge (self : PDFBox) (kw : merge_kwargs) : M unit :=
  let source_files := arg [] (mg_source_files kw) in
  if (List.length source_files <? 2)%nat then
    print "Not enough source files to merge.  Need to have at least 2 source files." ;;;
    ret tt
  else
    _run_cmd (merge_cmd self kw).

(** ** [pdf_debugger] *)

Record pdf_debugger_kwargs := {
  pd_password : option (option string);
  pd_view_structure : option (option bool)
  }.

Definition pdf_debugger_terms (kw : pdf_debugger_kwargs) : list string :=
  let password := arg None (pd_password kw) in
  let view_structure := arg None (pd_view_structure kw) in
  [ match password with
    | Some v => if Py.truthy_str v then " -password " ++ v else ""
    | None => "" end;
    match view_structure with
    | Some true => " -viewstructure"
    | _ => "" end ].

Definition pdf_debugger_options (kw : pdf_debugger_kwargs) : string :=
  Py.concat (pdf_debugger_terms kw).

Definition pdf_debugger_cmd (self : PDFBox) (input_path : string)
           (kw : pdf_debugger_kwargs) : string :=
  java_path self ++ " -jar " ++ pdfbox_path self ++ " PDFDebugger " ++
  input_path ++ " " ++ pdf_debugger_options kw.

Definition pdf_debugger (self : PDFBox) (input_path : string)
           (kw : pdf_debugger_kwargs) : M unit :=
  _run_cmd (pdf_debugger_cmd self input_path kw).

(** ** [to_image] *)

Record to_image_kwargs := {
  ti_password : option (option string);
  ti_image_type : option (option string);
  ti_output_prefix : option (option string);
  ti_start_page : option (option Z);
  ti_end_page : option (option Z);
  ti_page : option (option Z);
  ti_dpi : option (option Z);
  ti_color : option (option string);
  ti_cropbox : option (option (list string));
  ti_time : option (option bool)
  }.

(** The ten parenthesised terms of lines 252-261, in that order. *)
Definition to_image_terms (kw : to_image_kwargs) : list string :=
  let password := arg None (ti_password kw) in
  let image_type := arg None (ti_image_type kw) in
  let output_prefix := arg None (ti_output_prefix kw) in
  let start_page := arg None (ti_start_page kw) in
  let end_page := arg None (ti_end_page kw) in
  let page := arg None (ti_page kw) in
  let dpi := arg None (ti_dpi kw) in
  let color := arg None (ti_color kw) in
  let cropbox := arg None (ti_cropbox kw) in
  [ match password with
    | Some v => if Py.truthy_str v then " -password " ++ v else ""
    | None => "" end;
    match image_type with
    | Some v => if Py.truthy_str v then " -imageType " ++ v else ""
    | None => "" end;
    match output_prefix with
    | Some v => if Py.truthy_str v then " -outputPrefix " ++ v else ""
    | None => "" end;
    match start_page with
    | Some n => if Py.truthy_int n then " -startPage " ++ Py.str_int n else ""
    | None => "" end;
    match end_page with
    | Some n => if Py.truthy_int n then " -endPage " ++ Py.str_int n else ""
    | None => "" end;
    match page with
    | Some n => if Py.truthy_int n then " -page " ++ Py.str_int n else ""
    | None => "" end;
    match dpi with
    | Some n => if Py.truthy_int n then " -dpi " ++ Py.str_int n else ""
    | None => "" end;
    match color with
    | Some v => if Py.truthy_str v then " -color " ++ v else ""
    | None => "" end;
    match cropbox with
    | Some l => if Py.truthy_list l then " -cropbox " ++ Py.join " " l else ""
    | None => "" end;
    match color with
    | Some v => if Py.truthy_str v then " -color " ++ v else ""
    | None => "" end ].

Definition to_image_options (kw : to_image_kwargs) : string :=
  Py.concat (to_image_terms kw).

Definition to_image_cmd (self : PDFBox) (input_path : string)
           (kw : to_image_kwargs) : string :=
  java_path self ++ " -jar " ++ pdfbox_path self ++ " PDFToImage " ++
  input_path ++ " " ++ to_image_options kw.

Definition to_image (self : PDFBox) (input_path : string)
           (kw : to_image_kwargs) : M unit :=
  _run_cmd (to_image_cmd self input_path kw).

End WithExternals.
End Commands.


(* ================================================================== *)
(** * Command lines as ordered flag lists *)
(* ================================================================== *)

(** The reading of a command line used to state what the option strings
    contain: an ordered list of flags, each with a name, possibly a value,
    and whether the call asks for it.  The functions of [Commands] build
    strings directly; the lists below name, in the order of the source, the
    flag each term of those strings stands for. *)
Module CommandSpec.

Import Commands.

Record flag := mkFlag {
  flag_name : string;
  flag_value : option string;
  flag_given : bool
}.

(** [-flagName] or [-flagName value], after a separating space. *)
Definition render (fl : flag) : string :=
  if flag_given fl then
    " -" ++ flag_name fl ++
    match flag_value fl with
    | Some v => " " ++ v
    | None => ""
    end
  else "".

Definition serialize (l : list flag) : string := Py.concat (map render l).

Definition given (l : list flag) : list flag := filter flag_given l.

Definition toggle (name : string) (b : bool) : flag := mkFlag name None b.

Definition valued_str (name : string) (v : option string) : flag :=
  mkFlag name (Some (arg "" v)) (Py.truthy_opt Py.truthy_str v).

Definition valued_int (name : string) (v : option Z) : flag :=
  mkFlag name (Some (Py.str_int (arg 0%Z v))) (Py.truthy_opt Py.truthy_int v).

Definition valued_list (name : string) (v : option (list string)) : flag :=
  mkFlag name (Some (Py.join " " (arg [] v))) (Py.truthy_opt Py.truthy_list v).

Definition extract_text_flags (kw : extract_text_kwargs) : list flag :=
  [ valued_str "password" (arg None (et_password kw));
    valued_str "encoding" (arg None (et_encoding kw));
    toggle "html" (arg false (et_html kw));
    toggle "sort" (arg false (et_sort kw));
    toggle "ignoreBeads" (arg false (et_ignore_beads kw));
    valued_int "startPage" (arg (Some 1%Z) (et_start_page kw));
    valued_int "endPage" (arg None (et_end_page kw));
    toggle "alwaysNext" (arg false (et_always_next kw));
    toggle "console" (negb (Py.truthy_str (arg "" (et_output_path kw)))) ].

Definition split_file_flags (kw : split_file_kwargs) : list flag :=
  [ valued_str "password" (arg None (sf_password kw));
    valued_int "startPage" (arg None (sf_start_page kw));
    valued_int "endPage" (arg None (sf_end_page kw));
    valued_int "split" (arg None (sf_split kw)) ].

Definition pdf_debugger_flags (kw : pdf_debugger_kwargs) : list flag :=
  [ valued_str "password" (arg None (pd_password kw));
    toggle "viewstructure" (Py.truthy_opt (fun b : bool => b) (arg None (pd_view_structure kw))) ].

Definition to_image_flags (kw : to_image_kwargs) : list flag :=
  [ valued_str "password" (arg None (ti_password kw));
    valued_str "imageType" (arg None (ti_image_type kw));
    valued_str "outputPrefix" (arg None (ti_output_prefix kw));
    valued_int "startPage" (arg None (ti_start_page kw));
    valued_int "endPage" (arg None (ti_end_page kw));
    valued_int "page" (arg None (ti_page kw));
    valued_int "dpi" (arg None (ti_dpi kw));
    valued_str "color" (arg None (ti_color kw));
    valued_list "cropbox" (arg None (ti_cropbox kw));
    valued_str "color" (arg None (ti_color kw)) ].

(** The words of a command line: maximal runs of characters other than the
    space. *)
Fixpoint words_from (s : string) (cur : string) : list string :=
  match s with
  | "" => match cur with "" => [] | _ => [cur] end
  | String c s' =>
      if Ascii.eqb c " " then
        match cur with
        | "" => words_from s' ""
        | _ => cur :: words_from s' ""
        end
      else words_from s' (cur ++ String c "")
  end.

Definition words (s : string) : list string := words_from s "".

(** The words a list of flags puts on a command line: for each flag, its
    name after a dash, then the words of its value. *)
Definition flag_tokens (l : list flag) : list string :=
  flat_map (fun fl => ("-" ++ flag_name fl) ::
                      match flag_value fl with
                      | Some v => words v
                      | None => []
                      end) l.

(** The keyword arguments [kw] with [start_page] (or [end_page]) passed as
    [v]. *)
Definition with_start_page (v : option Z) (kw : extract_text_kwargs)
  : extract_text_kwargs :=
  Build_extract_text_kwargs (et_output_path kw) (et_password kw) (et_encoding kw)
    (et_html kw) (et_sort kw) (et_ignore_beads kw) (Some v) (et_end_page kw)
    (et_always_next kw).

Definition with_end_page (v : option Z) (kw : extract_text_kwargs)
  : extract_text_kwargs :=
  Build_extract_text_kwargs (et_output_path kw) (et_password kw) (et_encoding kw)
    (et_html kw) (et_sort kw) (et_ignore_beads kw) (et_start_page kw) (Some v)
    (et_always_next kw).

End CommandSpec.

(* ================================================================== *)
(** * The catalog as a function of the start tags *)
(* ================================================================== *)

(** What [_PDFBoxVersionsParser] collects, written without the accumulator
    and without the exception: for every [a] tag and every [href] attribute
    of it that has a value, in document order, the value stripped of
    slashes, when the version pattern occurs in it. *)
Module CatalogSpec.

Definition href_targets (attrs : list (string * option string)) : list string :=
  flat_map (fun a : string * option string =>
              if String.eqb (fst a) "href" then
                match snd a with
                | Some v =>
                    match Re.search Re.version_re (Py.strip_char "/" v) with
                    | Some _ => [Py.strip_char "/" v]
                    | None => []
                    end
                | None => []
                end
              else []) attrs.

Definition matching_targets (ts : list starttag) : list string :=
  flat_map (fun t : starttag =>
              if String.eqb (fst t) "a" then href_targets (snd t) else []) ts.

End CatalogSpec.

(* ================================================================== *)
(** * A concrete environment for the examples *)
(* ================================================================== *)

Module Demo.

(** Final releases [N(.N)*] as [packaging.version] reads them: the numeric
    components, trailing zeros dropped, compared component by component.
    Any other string is rejected. *)
Fixpoint digits_value (s : string) (acc : N) : option N :=
  match s with
  | "" => Some acc
  | String c s' =>
      if Re.digit c then digits_value s' (acc * 10 + (N_of_ascii c - 48))%N
      else None
  end.

Definition component (s : string) : option N :=
  match s with
  | "" => None
  | _ => digits_value s 0%N
  end.

Fixpoint split_dots (s : string) (cur : string) : list string :=
  match s with
  | "" => [cur]
  | String c s' =>
      if Ascii.eqb c "." then cur :: split_dots s' ""
      else split_dots s' (cur ++ String c "")
  end.

Fixpoint components (l : list string) : option (list N) :=
  match l with
  | [] => Some []
  | s :: l' =>
      match component s, components l' with
      | Some n, Some ns => Some (n :: ns)
      | _, _ => None
      end
  end.

Fixpoint drop_trailing_zeros (l : list N) : list N :=
  match l with
  | [] => []
  | n :: l' =>
      match drop_trailing_zeros l' with
      | [] => if N.eqb n 0 then [] else [n]
      | r => n :: r
      end
  end.

Definition parse_release (s : string) : option (list N) :=
  match components (split_dots s "") with
  | Some ns => Some (drop_trailing_zeros ns)
  | None => None
  end.

Fixpoint release_le (a b : list N) : bool :=
  match a, b with
  | [], _ => true
  | _ :: _, [] => false
  | x :: a', y :: b' =>
      if N.ltb x y then true
      else if N.ltb y x then false
      else release_le a' b'
  end.

(** Decoding of ASCII text; a byte above 127 is refused. *)
Definition decode_ascii (encoding : string) (d : Py.bytes) : option string :=
  if forallb (fun b => N.ltb (Byte.to_N b) 128) d
  then Some (string_of_list_byte d) else None.

(** The start tags of a page written as a sequence of [<a href='...'>]
    anchors. *)
Fixpoint anchors (s : string) (skip : nat) (value : option string) : list starttag :=
  match s with
  | "" => []
  | String c s' =>
      match skip with
      | S n => anchors s' n value
      | O =>
          match value with
          | Some v =>
              if Ascii.eqb c "'" then ("a", [("href", Some v)]) :: anchors s' 0 None
              else anchors s' 0 (Some (v ++ String c ""))
          | None =>
              if Py.startswith "<a href='" s then anchors s' 8 (Some "")
              else anchors s' 0 None
          end
      end
  end.

Definition text_response (s : string) : response :=
  mkResponse (Some (bytes_of_string s)) None.

Definition archive_page : string :=
  "<a href='../'>Parent</a><a href='1.8.16/'>1.8.16/</a><a href='2.0.9/'>2.0.9/</a><a href='2.0.19/'>2.0.19/</a><a href='KEYS'>KEYS</a>".

Definition jar_url : string :=
  "https://archive.apache.org/dist/pdfbox/2.0.19/pdfbox-app-2.0.19.jar".

Definition jar_bytes : Py.bytes := bytes_of_string "abc".

(** A mirror that serves the listing, the jar, and the checksum text
    [checksum]. *)
Definition network (checksum : string) : list (string * response) :=
  [ ("https://archive.apache.org/dist/pdfbox/", text_response archive_page);
    (jar_url, mkResponse (Some jar_bytes) None);
    (jar_url ++ ".sha512", text_response checksum) ].

Definition externals (checksum : string) : Externals := {|
  version := list N;
  parse_version := parse_release;
  version_le := release_le;
  decode := decode_ascii;
  starttags := fun page => anchors page 0 None;
  urlopen := fun url => lookup url (network checksum);
  sarge_starts := fun _ => true
|}.

Definition cache : string := "/home/user/.cache/python-pdfbox".

(** No override, nothing cached, [java] installed. *)
Definition empty_cache : World :=
  mkWorld [("HOME", "/home/user")] cache [("/home/user", Dir)]
          (Some "/usr/bin/java") [].

(** Two jars in the cache. *)
Definition populated_cache : World :=
  mkWorld [("HOME", "/home/user")] cache
          [ ("/home/user", Dir); (cache, Dir);
            (cache ++ "/pdfbox-app-2.9.0.jar", File jar_bytes);
            (cache ++ "/pdfbox-app-2.10.0.jar", File jar_bytes);
            (cache ++ "/notes.txt", File []) ]
          (Some "/usr/bin/java") [].

(** A cache in which one of the files matching the glob has no version in
    its name. *)
Definition odd_cache : World :=
  mkWorld [("HOME", "/home/user")] cache
          [ (cache, Dir);
            (cache ++ "/pdfbox-app-2.0.19.jar", File jar_bytes);
            (cache ++ "/pdfbox-app-.jar", File []) ]
          (Some "/usr/bin/java") [].




Definition sha512_abc : string :=
  "ddaf35a193617abacc417349ae20413112e6fa4e89a97ea20a9eeee64b55d39a2192992a274fc1a836ba3c23a3feebbd454d4423643ce80e2a9ac94fa54ca49f".

Definition sha512_abc_upper : string :=
  "DDAF35A193617ABACC417349AE20413112E6FA4E89A97EA20A9EEEE64B55D39A2192992A274FC1A836BA3C23A3FEEBBD454D4423643CE80E2A9AC94FA54CA49F".

Definition self : Resolver.PDFBox :=
  Resolver.mkPDFBox (cache ++ "/pdfbox-app-2.0.19.jar") "/usr/bin/java".

(** [extract_text(input_path)]: no keyword argument passed. *)
Definition extract_text_plain : Commands.extract_text_kwargs :=
  Commands.Build_extract_text_kwargs None None None None None None None None None.

(** [extract_text(input_path, output_path='out.txt', start_page=0, end_page=0)] *)
Definition extract_text_to_file : Commands.extract_text_kwargs :=
  Commands.Build_extract_text_kwargs (Some "out.txt") None None None None None
    (Some (Some 0%Z)) (Some (Some 0%Z)) None.

(** [to_image(input_path, dpi=24, color='gray', cropbox=['0', '0', '10', '10'])] *)
Definition to_image_gray : Commands.to_image_kwargs :=
  Commands.Build_to_image_kwargs None None None None None None (Some (Some 24%Z))
    (Some (Some "gray")) (Some (Some ["0"; "0"; "10"; "10"])) None.

(** [to_image(input_path, color='')] *)
Definition to_image_blank : Commands.to_image_kwargs :=
  Commands.Build_to_image_kwargs None None None None None None None
    (Some (Some "")) None None.

(** [merge(['only.pdf'])] *)
Definition merge_one : Commands.merge_kwargs :=
  Commands.Build_merge_kwargs (Some ["only.pdf"]) None.

End Demo.

(* ================================================================== *)
(** * What a call leaves as it was *)
(* ================================================================== *)

Module Frame.

(** The environment variables, the cache directory and [java] are the same
    in [w'] as in [w], and the effects of [w'] extend those of [w]. *)
Definition same_setting (w w' : World) : Prop :=
  environ w' = environ w /\
  user_cache_dir w' = user_cache_dir w /\
  which_java w' = which_java w /\
  exists evs, trace w' = (trace w ++ evs)%list.

(** Every path other than [dir] and the paths below [dir] holds in [w']
    what it held in [w], unless it is a directory above [dir] that was
    missing in [w] and is a directory in [w']. *)
Definition untouched_outside (dir : string) (w w' : World) : Prop :=
  forall p, p <> dir -> Py.strip_prefix (dir ++ "/") p = None ->
            lookup p (fs w') = lookup p (fs w) \/
            ((exists rest, dir = p ++ "/" ++ rest) /\
             lookup p (fs w) = None /\ lookup p (fs w') = Some Dir).

(** The computation [m] relates every world to the world it leaves. *)
Definition keeps {A} (R : World -> World -> Prop) (m : M A) : Prop :=
  forall w, R w (snd (m w)).

(** The file system is the same in [w'] as in [w]. *)
Definition same_files (w w' : World) : Prop := fs w' = fs w.

(** Some character of [s] is a slash. *)
Definition has_slash (s : string) : bool :=
  existsb (Ascii.eqb "/") (list_ascii_of_string s).

(** No character of [s] is a space. *)
Definition spaceless (s : string) : Prop :=
  forall c, In c (list_ascii_of_string s) -> c <> " "%char.

(** A word of a command line: not empty and without a space. *)
Definition is_word (s : string) : Prop := s <> "" /\ spaceless s.

End Frame.

(* ================================================================== *)
(** * More scenarios for the examples *)
(* ================================================================== *)

Module Scenario.

(** A mirror whose checksum file holds the digest of the jar followed by a
    line feed. *)
Definition good_mirror : Externals :=
  Demo.externals (Demo.sha512_abc ++ String (ascii_of_nat 10) "").

(** A page with an anchor whose [href] has no value. *)
Definition valueless_href : list starttag :=
  [("a", [("href", Some "2.0.19/")]); ("a", [("class", Some "x"); ("href", None)])].

(** [merge(['a.pdf', 'b.pdf'], target_file='out.pdf')] *)
Definition merge_two : Commands.merge_kwargs :=
  Commands.Build_merge_kwargs (Some ["a.pdf"; "b.pdf"]) (Some "out.pdf").


(** No URL can be opened. *)
Definition offline : Externals := {|
  version := list N;
  parse_version := Demo.parse_release;
  version_le := Demo.release_le;
  decode := Demo.decode_ascii;
  starttags := fun page => Demo.anchors page 0 None;
  urlopen := fun _ => None;
  sarge_starts := fun _ => false
|}.

(** The tokenizer reports the tags of [valueless_href] for every page. *)
Definition broken_page : Externals := {|
  version := list N;
  parse_version := Demo.parse_release;
  version_le := Demo.release_le;
  decode := Demo.decode_ascii;
  starttags := fun _ => valueless_href;
  urlopen := fun url => lookup url (Demo.network "00");
  sarge_starts := fun _ => true
|}.

(** Java is not installed; the override names a file that exists. *)
Definition no_java : World :=
  mkWorld [("PDFBOX", "/opt/pdfbox.jar")] Demo.cache
          [("/opt/pdfbox.jar", File Demo.jar_bytes)] None [].

End Scenario.

(* ================================================================== *)
(** * Properties *)
(* ================================================================== *)

(** ** Test vectors and examples *)

Example sha512_empty :
  Sha512.hexdigest [] =
  "cf83e1357eefb8bdf1542850d66d8007d620e4050b5715dc83f4a921d36ce9ce47d0d13c5d85f2b0ff8318d2877eec2f63b931bd47417a81a538327af927da3e".
Proof. vm_compute. reflexivity. Qed.

Example sha512_abc :
  Sha512.hexdigest (bytes_of_string "abc") = Demo.sha512_abc.
Proof. vm_compute. reflexivity. Qed.

(** A message of two blocks: 200 times the letter [a]. *)
Example sha512_two_blocks :
  Sha512.hexdigest (repeat Byte.x61 200) =
  "4b11459c33f52a22ee8236782714c150a3b2c60994e9acee17fe68947a3e6789f31e7668394592da7bef827cddca88c4e6f86e4df7ed1ae6cba71f3e98faee9f".
Proof. vm_compute. reflexivity. Qed.

Example re_examples :
  Re.search Re.version_re "2.0.19" = Some [] /\
  Re.search Re.version_re "KEYS" = None /\
  Re.search Re.version_re "x1.2.3y" = Some [] /\
  Re.search Re.version_re "1.8" = None /\
  Re.search Re.jar_re "pdfbox-app-2.0.19.jar" = Some ["2.0.19"] /\
  Re.search Re.jar_re "pdfbox-app-.jar" = None /\
  Re.search Re.jar_re "pdfbox-app-1.0.jar.jar" = Some ["1.0.jar"] /\
  Re.search Re.jar_re "pdfbox-app-2.0 (1).jar" = None /\
  Re.glob_match "pdfbox-app-.jar" = true /\
  Re.glob_match "pdfbox-app-2.0 (1).jar" = true /\
  Re.glob_match "pdfbox-app-2.0.jar.part" = false.
Proof. vm_compute. repeat split; reflexivity. Qed.

Example py_examples :
  Py.strip "  ab c
" = "ab c" /\
  Py.strip_char "/" "//2.0.1/" = "2.0.1" /\
  Py.str_int (-12) = "-12" /\ Py.str_int 305 = "305" /\
  Py.join " " ["a"; "b"; "c"] = "a b c" /\
  basename Demo.jar_url = "pdfbox-app-2.0.19.jar".
Proof. vm_compute. repeat split; reflexivity. Qed.

(** ** [sorted] *)

Module PyFacts.
Section Sorted.
Variables (A K : Type) (le : K -> K -> bool).

Lemma In_insert_keyed (x z : A * K) (l : list (A * K)) :
  In z (Py.insert_keyed le x l) <-> z = x \/ In z l.
Proof.
  induction l as [|y l IH]; simpl.
  - intuition congruence.
  - destruct (le (snd x) (snd y)); simpl; [intuition congruence|].
    rewrite IH. intuition congruence.
Qed.

Lemma In_sort_keyed (z : A * K) (l : list (A * K)) :
  In z (Py.sort_keyed le l) <-> In z l.
Proof.
  induction l as [|y l IH]; simpl; [tauto|].
  rewrite In_insert_keyed, IH. intuition congruence.
Qed.

Lemma insert_keyed_not_nil (x : A * K) (l : list (A * K)) :
  Py.insert_keyed le x l <> [].
Proof. destruct l; simpl; [|destruct (le _ _)]; discriminate. Qed.

Lemma last_opt_cons (B : Type) (y : B) (l : list B) :
  l <> [] -> Py.last_opt (y :: l) = Py.last_opt l.
Proof. destruct l; [congruence | reflexivity]. Qed.

Lemma last_opt_In (B : Type) (l : list B) :
  l <> [] -> exists m, Py.last_opt l = Some m /\ In m l.
Proof.
  induction l as [|y l IH]; [congruence|]. intros _.
  destruct l as [|y' l'].
  - exists y. simpl. auto.
  - destruct IH as (m & Hm & Hin); [discriminate|].
    exists m. split; [exact Hm | right; exact Hin].
Qed.

Hypothesis le_total : forall a b, le a b = true \/ le b a = true.
Hypothesis le_trans : forall a b c, le a b = true -> le b c = true -> le a c = true.

Lemma le_refl (a : K) : le a a = true.
Proof. destruct (le_total a a); assumption. Qed.

Lemma insert_keyed_last_max (x : A * K) (l : list (A * K)) (m : A * K) :
  Py.last_max le l m -> exists m', Py.last_max le (Py.insert_keyed le x l) m'.
Proof.
  induction l as [|y l IH]; intros [Hlast Hmax]; [discriminate|].
  simpl. destruct (le (snd x) (snd y)) eqn:Hxy.
  - exists m. split.
    + rewrite last_opt_cons by discriminate. exact Hlast.
    + intros z [<-|Hz]; [|auto].
      apply le_trans with (snd y); [exact Hxy | apply Hmax; left; reflexivity].
  - destruct l as [|y' l'].
    + simpl in Hlast. injection Hlast as <-. exists x. split; [reflexivity|].
      intros z [<-|[<-|[]]]; [|apply le_refl].
      destruct (le_total (snd y) (snd x)); congruence.
    + destruct IH as (m' & Hlast' & Hmax').
      { split; [exact Hlast | intros z Hz; apply Hmax; right; exact Hz]. }
      exists m'. split.
      * rewrite last_opt_cons by apply insert_keyed_not_nil. exact Hlast'.
      * intros z [<-|Hz]; [|auto].
        apply le_trans with (snd m); [apply Hmax; left; reflexivity|].
        apply Hmax'. apply In_insert_keyed. right.
        destruct (last_opt_In (l := y' :: l')) as (m0 & Hm0 & Hin0); [discriminate|].
        simpl in Hlast, Hm0. congruence.
Qed.

Lemma sort_keyed_last_max (l : list (A * K)) :
  l <> [] -> exists m, Py.last_max le (Py.sort_keyed le l) m /\ In m l.
Proof.
  induction l as [|x l IH]; [congruence|]. intros _.
  assert (Hex : exists m, Py.last_max le (Py.sort_keyed le (x :: l)) m).
  { destruct l as [|x' l'].
    - exists x. split; [reflexivity|]. intros z [<-|[]]. apply le_refl.
    - destruct IH as (m & Hm & _); [discriminate|].
      simpl. apply insert_keyed_last_max with m. exact Hm. }
  destruct Hex as (m & Hm). exists m. split; [exact Hm|].
  destruct Hm as [Hlast _].
  apply In_sort_keyed.
  destruct (last_opt_In (l := Py.sort_keyed le (x :: l))) as (m0 & Hm0 & Hin0).
  { simpl. apply insert_keyed_not_nil. }
  congruence.
Qed.

End Sorted.

Section Decorate.
Variables (A K E : Type) (key : A -> E + K).

Lemma decorate_inr (l : list A) (d : list (A * K)) :
  Py.decorate key l = inr d ->
  map fst d = l /\ forall x k, In (x, k) d -> key x = inr k.
Proof.
  revert d. induction l as [|x l IH]; simpl; intros d H.
  - injection H as <-. split; [reflexivity | intros ? ? []].
  - destruct (key x) as [e|k] eqn:Hk; [discriminate|].
    destruct (Py.decorate key l) as [e|d'] eqn:Hd; [discriminate|].
    injection H as <-. destruct (IH d' eq_refl) as [Hmap Hkeys].
    split; [simpl; congruence|].
    intros y ky [Heq|Hin]; [congruence | auto].
Qed.

Lemma decorate_inl (l : list A) (e : E) :
  Py.decorate key l = inl e -> exists x, In x l /\ key x = inl e.
Proof.
  induction l as [|x l IH]; simpl; [discriminate|].
  destruct (key x) as [e'|k] eqn:Hk.
  - intros H. injection H as <-. exists x. auto.
  - destruct (Py.decorate key l) as [e'|d']; [|discriminate].
    intros H. injection H as <-. destruct (IH eq_refl) as (y & Hy & Hky).
    exists y. auto.
Qed.

Lemma decorate_raises (l : list A) (x : A) (e : E) :
  In x l -> key x = inl e -> exists e', Py.decorate key l = inl e'.
Proof.
  induction l as [|y l IH]; simpl; [intros []|].
  intros [->|Hin] Hk.
  - rewrite Hk. eauto.
  - destruct (key y); [eauto|].
    destruct (IH Hin Hk) as (e' & ->). eauto.
Qed.

Lemma decorate_total (l : list A) :
  (forall x, In x l -> exists k, key x = inr k) ->
  exists d, Py.decorate key l = inr d.
Proof.
  intros Hall. destruct (Py.decorate key l) as [e|d] eqn:Hd; [|eauto].
  destruct (decorate_inl _ Hd) as (x & Hx & Hk).
  destruct (Hall x Hx) as (k & Hk'). congruence.
Qed.

End Decorate.
End PyFacts.

(** ** Selecting the latest version *)

Module LatestFacts.
Import Resolver.

Section Latest.
Context {X : Externals}.
Variables (A : Type) (key : A -> exn + version).

Lemma latest_nil : latest key [] = inl IndexError.
Proof. reflexivity. Qed.

(** The first key that raises decides the outcome. *)
Lemma latest_inl (l : list A) (e : exn) :
  latest key l = inl e ->
  l = [] /\ e = IndexError \/ exists x, In x l /\ key x = inl e.
Proof.
  unfold latest, Py.sorted.
  destruct (Py.decorate key l) as [e'|d] eqn:Hd.
  - intros H. injection H as <-. right. exact (PyFacts.decorate_inl _ _ Hd).
  - destruct (PyFacts.decorate_inr _ _ Hd) as [Hmap _].
    destruct d as [|p d].
    { simpl in *. subst l. intros H. injection H as <-. auto. }
    destruct (PyFacts.last_opt_In (l := map fst (Py.sort_keyed version_le (p :: d))))
      as (m & -> & _); [|discriminate].
    simpl. intros Hnil. apply map_eq_nil in Hnil.
    exact (PyFacts.insert_keyed_not_nil _ _ _ Hnil).
Qed.

Lemma latest_raises (l : list A) (x : A) (e : exn) :
  In x l -> key x = inl e -> exists e', latest key l = inl e'.
Proof.
  intros Hin Hk. unfold latest, Py.sorted.
  destruct (PyFacts.decorate_raises key l x Hin Hk) as (e' & ->). eauto.
Qed.

Lemma last_opt_map (B C : Type) (g : B -> C) (l : list B) :
  Py.last_opt (map g l) = option_map g (Py.last_opt l).
Proof.
  induction l as [|y l IH]; [reflexivity|].
  destruct l; [reflexivity | exact IH].
Qed.

(** Without any assumption on the order: a non-empty list whose keys can all
    be computed yields one of its elements. *)
Lemma latest_returns (l : list A) :
  l <> [] -> (forall x, In x l -> exists k, key x = inr k) ->
  exists m, latest key l = inr m /\ In m l.
Proof.
  intros Hne Hall. unfold latest, Py.sorted.
  destruct (PyFacts.decorate_total key l Hall) as (d & Hd). rewrite Hd.
  destruct (PyFacts.decorate_inr _ _ Hd) as [Hmap _].
  assert (Hd_ne : Py.sort_keyed version_le d <> []).
  { destruct d; [simpl in Hmap; congruence | apply PyFacts.insert_keyed_not_nil]. }
  destruct (PyFacts.last_opt_In Hd_ne) as (m & Hm & Hin).
  rewrite last_opt_map, Hm. simpl. exists (fst m). split; [reflexivity|].
  rewrite <- Hmap. apply in_map. apply PyFacts.In_sort_keyed in Hin. exact Hin.
Qed.

Hypothesis version_le_total :
  forall a b : version, version_le a b = true \/ version_le b a = true.
Hypothesis version_le_trans :
  forall a b c : version,
    version_le a b = true -> version_le b c = true -> version_le a c = true.

(** With a total, transitive order on the keys, the element returned has a
    key that no other key of the list exceeds. *)
Lemma latest_max (l : list A) :
  l <> [] -> (forall x, In x l -> exists k, key x = inr k) ->
  exists m km,
    latest key l = inr m /\ In m l /\ key m = inr km /\
    forall y ky, In y l -> key y = inr ky -> version_le ky km = true.
Proof.
  intros Hne Hall. unfold latest, Py.sorted.
  destruct (PyFacts.decorate_total key l Hall) as (d & Hd). rewrite Hd.
  destruct (PyFacts.decorate_inr _ _ Hd) as [Hmap Hkeys].
  assert (Hd_ne : d <> []) by (destruct d; [simpl in Hmap; congruence | discriminate]).
  destruct (@PyFacts.sort_keyed_last_max _ _ version_le version_le_total version_le_trans d Hd_ne)
    as ([m km] & [Hlast Hmax] & Hin).
  rewrite last_opt_map, Hlast. simpl.
  exists m, km. split; [reflexivity|]. split.
  { rewrite <- Hmap. exact (in_map fst _ _ Hin). }
  split; [exact (Hkeys _ _ Hin)|].
  intros y ky Hy Hky. rewrite <- Hmap in Hy. apply in_map_iff in Hy.
  destruct Hy as ([y' ky'] & Heq & Hin'). simpl in Heq. subst y'.
  assert (ky' = ky) by (specialize (Hkeys _ _ Hin'); congruence). subst ky'.
  apply (Hmax (y, ky)). apply PyFacts.In_sort_keyed. exact Hin'.
Qed.

End Latest.
End LatestFacts.

(** ** The order of the example environment *)

Module DemoFacts.

Lemma release_le_total (a b : list N) :
  Demo.release_le a b = true \/ Demo.release_le b a = true.
Proof.
  revert b. induction a as [|x a IH]; intros [|y b]; simpl; auto.
  destruct (N.ltb_spec x y), (N.ltb_spec y x); auto; lia.
Qed.

Lemma release_le_trans (a b c : list N) :
  Demo.release_le a b = true -> Demo.release_le b c = true ->
  Demo.release_le a c = true.
Proof.
  revert b c. induction a as [|x a IH]; intros [|y b] [|z c]; simpl; auto;
    try discriminate.
  destruct (N.ltb_spec x y), (N.ltb_spec y x), (N.ltb_spec y z), (N.ltb_spec z y),
    (N.ltb_spec x z), (N.ltb_spec z x);
    try discriminate; try lia; auto.
  apply IH.
Qed.

End DemoFacts.

(** ** The parser of the archive listing *)

Module CatalogFacts.
Import Resolver.

Section Catalog.
Context {X : Externals}.

Lemma handle_attrs_spec (attrs : list (string * option string)) (acc r : list string) :
  handle_attrs attrs acc = inr r -> r = (acc ++ CatalogSpec.href_targets attrs)%list.
Proof.
  revert acc. induction attrs as [|[name value] attrs IH]; simpl; intros acc H.
  - injection H as <-. symmetry. apply app_nil_r.
  - destruct (String.eqb name "href"); [|exact (IH _ H)].
    destruct value as [v|]; [|discriminate].
    destruct (Re.search Re.version_re (Py.strip_char "/" v)).
    + rewrite (IH _ H). rewrite <- app_assoc. reflexivity.
    + exact (IH _ H).
Qed.

Lemma handle_all_spec (ts : list starttag) (acc r : list string) :
  handle_all ts acc = inr r -> r = (acc ++ CatalogSpec.matching_targets ts)%list.
Proof.
  revert acc. induction ts as [|[tag attrs] ts IH]; simpl; intros acc H.
  - injection H as <-. symmetry. apply app_nil_r.
  - unfold handle_starttag in H. simpl in H.
    destruct (String.eqb tag "a").
    + destruct (handle_attrs attrs acc) as [e|acc'] eqn:Ha; [discriminate|].
      rewrite (IH _ H), (handle_attrs_spec _ _ Ha), <- app_assoc. reflexivity.
    + exact (IH _ H).
Qed.

Lemma feed_spec (data : string) (result : list string) :
  feed data = inr result -> result = CatalogSpec.matching_targets (starttags data).
Proof. intros H. exact (handle_all_spec _ _ H). Qed.

(** With the page fetched and decoded, an empty catalog makes
    [_get_latest_pdfbox_url] raise [IndexError]. *)
Lemma empty_catalog_raises (w : World) (r : response) (d : Py.bytes) (data : string) :
  urlopen pdfbox_archive_url = Some r -> read r = Some d ->
  decode "utf-8" d = Some data -> feed data = inr [] ->
  fst (_get_latest_pdfbox_url w) = inl IndexError.
Proof.
  intros Hr Hd Hdec Hfeed.
  unfold _get_latest_pdfbox_url, do_urlopen, bind, emit, lift, ret. simpl.
  rewrite Hr. simpl. rewrite Hd, Hdec. simpl. rewrite Hfeed. reflexivity.
Qed.

End Catalog.
End CatalogFacts.

(** ** The digest is lowercase hexadecimal *)

Module Sha512Facts.
Local Open Scope Z_scope.

Lemma be_bytes_range (n : nat) (x : Z) : Forall Sha512.is_byte (Sha512.be_bytes n x).
Proof.
  revert x. induction n as [|n IH]; intros x; simpl; [constructor|].
  apply Forall_app. split; [apply IH|].
  constructor; [|constructor]. unfold Sha512.is_byte. apply Z.mod_pos_bound. lia.
Qed.

Lemma digest_range (data : Py.bytes) : Forall Sha512.is_byte (Sha512.digest data).
Proof.
  unfold Sha512.digest. apply Forall_flat_map.
  apply Forall_forall. intros x _. apply be_bytes_range.
Qed.

Lemma hex_digit_lower (n : Z) :
  0 <= n < 16 -> Py.lower_char (Sha512.hex_digit n) = Sha512.hex_digit n.
Proof.
  intros H. replace n with (Z.of_nat (Z.to_nat n)) by lia.
  assert (Hk : (Z.to_nat n < 16)%nat) by lia.
  revert Hk. generalize (Z.to_nat n) as k. intros k Hk.
  do 16 (destruct k as [|k]; [reflexivity|]). lia.
Qed.

Lemma hex_of_bytes_lower (bs : list Z) :
  Forall Sha512.is_byte bs -> Py.lower (Sha512.hex_of_bytes bs) = Sha512.hex_of_bytes bs.
Proof.
  induction 1 as [|b bs Hb _ IH]; [reflexivity|].
  unfold Sha512.is_byte in Hb. simpl. rewrite IH.
  rewrite !hex_digit_lower; [reflexivity| |].
  - apply Z.mod_pos_bound. lia.
  - split; [apply Z.div_pos; lia | apply Z.div_lt_upper_bound; lia].
Qed.

Lemma hexdigest_lower (data : Py.bytes) :
  Py.lower (Sha512.hexdigest data) = Sha512.hexdigest data.
Proof. apply hex_of_bytes_lower, digest_range. Qed.

End Sha512Facts.

(** ** The resolution of the jar *)

Module ResolverFacts.
Import Resolver.

Section Resolution.
Context {X : Externals}.


(** The cache branch when the glob finds something: one scan, then the
    selection among the files found. *)
Lemma cache_hit_branch (w : World) :
  lookup "PDFBOX" (environ w) = None ->
  jars_in (user_cache_dir w) (fs w) <> [] ->
  _get_pdfbox_path w =
  (latest f (jars_in (user_cache_dir w) (fs w)), record (EGlob (user_cache_dir w)) w).
Proof.
  intros H Hne. unfold _get_pdfbox_path, bind, gets. rewrite H.
  unfold glob_jars, bind, emit, gets, lift. simpl.
  destruct (jars_in (user_cache_dir w) (fs w)); [congruence | reflexivity].
Qed.

Lemma requests_record (e : event) (w : World) :
  requests (record e w) =
  (requests w ++ match e with EUrlOpen u => [u] | _ => [] end)%list.
Proof.
  unfold requests, record. simpl. rewrite flat_map_app. simpl.
  rewrite app_nil_r. reflexivity.
Qed.


Lemma spawned_record (e : event) (w : World) :
  spawned (record e w) =
  (spawned w ++ match e with ESpawn c => [c] | _ => [] end)%list.
Proof.
  unfold spawned, record. simpl. rewrite flat_map_app. simpl.
  rewrite app_nil_r. reflexivity.
Qed.

Lemma f_inr (p : string) (k : version) :
  f p = inr k <->
  exists v rest, Re.search Re.jar_re (basename p) = Some (v :: rest) /\
                 parse_version v = Some k.
Proof.
  unfold f, version_key. split.
  - destruct (Re.search Re.jar_re (basename p)) as [[|v rest]|]; try discriminate.
    destruct (parse_version v) eqn:Hv; [|discriminate].
    intros H. injection H as <-. eauto.
  - intros (v & rest & -> & ->). reflexivity.
Qed.

End Resolution.
End ResolverFacts.

(* ================================================================== *)
(** * The claims *)
(* ================================================================== *)

Import Resolver.

(** C1 (the code departs from it).  With nothing cached and a checksum file
    that does not carry the digest of the downloaded jar, [_get_pdfbox_path]
    raises [RuntimeError('failed to verify sha512sum')], but the jar has
    already been written under its final name: the cache, empty before the
    call, holds [pdfbox-app-2.0.19.jar] after it, and the next call returns
    that unverified file from the cache without opening any URL. *)
Theorem C1_mismatch_leaves_jar_in_cache :
  let X := Demo.externals "00" in
  let r := _get_pdfbox_path Demo.empty_cache in
  let jar := Demo.cache ++ "/pdfbox-app-2.0.19.jar" in
  _verify_sha512 Demo.jar_bytes "00" = false /\
  jars_in Demo.cache (fs Demo.empty_cache) = [] /\
  fst r = inl (RuntimeError "failed to verify sha512sum") /\
  jars_in Demo.cache (fs (snd r)) = [jar] /\
  lookup jar (fs (snd r)) = Some (File Demo.jar_bytes) /\
  fst (_get_pdfbox_path (snd r)) = inr jar /\
  requests (snd (_get_pdfbox_path (snd r))) = requests (snd r).
Proof. vm_compute. repeat split; reflexivity. Qed.



(** C3 (amended).  Let [<=] on parsed versions be total and transitive.
    For every non-empty list of version strings that [parse_version]
    accepts, [sorted(result, key=parse_version)[-1]] is an entry of the list
    whose parsed version no other entry exceeds; the comparison is the one
    on parsed versions, not the one on strings.  When some entry is not
    accepted, the selection raises [InvalidVersion] instead.  The cache scan
    selects in the same way, with the same order, on the version that
    ['pdfbox-app-([\w\.\-]+)\.jar'] extracts from each file name. *)
Theorem C3_latest_is_version_maximum {X : Externals}
  (version_le_total :
     forall a b : version, version_le a b = true \/ version_le b a = true)
  (version_le_trans :
     forall a b c : version,
       version_le a b = true -> version_le b c = true -> version_le a c = true) :
  (forall result : list string,
      result <> [] ->
      (forall s, In s result -> parse_version s <> None) ->
      exists v kv,
        latest_version result = inr v /\ In v result /\
        parse_version v = Some kv /\
        forall s ks, In s result -> parse_version s = Some ks ->
                     version_le ks kv = true) /\
  (forall (result : list string) (s : string),
      In s result -> parse_version s = None ->
      latest_version result = inl InvalidVersion) /\
  (forall file_list : list string,
      file_list <> [] ->
      (forall p, In p file_list -> exists k, f p = inr k) ->
      exists p kp,
        latest f file_list = inr p /\ In p file_list /\ f p = inr kp /\
        forall q kq, In q file_list -> f q = inr kq -> version_le kq kp = true) /\
  (forall p v rest,
      Re.search Re.jar_re (basename p) = Some (v :: rest) -> f p = version_key v).
Proof.
  split; [|split; [|split]].
  - intros result Hne Hall.
    destruct (LatestFacts.latest_max version_key version_le_total version_le_trans Hne)
      as (v & kv & Hl & Hin & Hk & Hmax).
    { intros s Hs. specialize (Hall s Hs). unfold version_key.
      destruct (parse_version s); [eauto | congruence]. }
    exists v, kv. split; [exact Hl|]. split; [exact Hin|]. split.
    { unfold version_key in Hk. destruct (parse_version v); congruence. }
    intros s ks Hs Hks. apply (Hmax s ks Hs). unfold version_key. rewrite Hks. reflexivity.
  - intros result s Hs Hnone.
    destruct (LatestFacts.latest_raises version_key result s (e := InvalidVersion) Hs)
      as (e & He).
    { unfold version_key. rewrite Hnone. reflexivity. }
    unfold latest_version. rewrite He. f_equal.
    destruct (LatestFacts.latest_inl _ _ He) as [[-> _]|(x & _ & Hx)]; [destruct Hs|].
    unfold version_key in Hx. destruct (parse_version x); congruence.
  - intros file_list Hne Hall.
    exact (LatestFacts.latest_max f version_le_total version_le_trans Hne Hall).
  - intros p v rest H. unfold f. rewrite H. reflexivity.
Qed.

(** C3 at the versions 2.9.0 and 2.10.0, which the order on strings ranks
    the other way round. *)
Lemma C3_latest_is_version_maximum_witness :
  let X := Demo.externals "00" in
  latest_version ["2.9.0"; "2.10.0"] = inr "2.10.0" /\
  String.leb "2.10.0" "2.9.0" = true.
Proof.
  intros X. split; [|reflexivity].
  destruct (@C3_latest_is_version_maximum X
              DemoFacts.release_le_total DemoFacts.release_le_trans)
    as (Hmax & _).
  destruct (Hmax ["2.9.0"; "2.10.0"]) as (v & kv & Hl & Hin & Hk & Hall).
  - discriminate.
  - intros s [<-|[<-|[]]]; discriminate.
  - rewrite Hl. f_equal.
    destruct Hin as [<-|[<-|[]]]; [|reflexivity].
    injection Hk as <-.
    specialize (Hall "2.10.0" [2; 10]%N (or_intror (or_introl eq_refl)) eq_refl).
    discriminate Hall.
Defined.

(** C3 as stated fails when an entry is not a version: one well-formed
    entry is not enough for a version to be selected. *)
Lemma C3_one_well_formed_entry_is_not_enough :
  let X := Demo.externals "00" in
  ~ (forall result : list string,
        (exists s, In s result /\ parse_version s <> None) ->
        exists v, latest_version result = inr v).
Proof.
  intros X H.
  destruct (H ["2.9.0"; "3.0.0-SNAPSHOT"]) as (v & Hv).
  - exists "2.9.0". split; [left; reflexivity | discriminate].
  - discriminate Hv.
Qed.

(** C4 (amended).  With no override and at least one file matching
    ['pdfbox-app-*.jar'] in the cache directory, two calls of
    [_get_pdfbox_path] in a row open no URL, leave the files as they are and
    have the same outcome.  That outcome is the path of one of the matching
    files when the name of every matching file carries a version that
    [parse_version] accepts. *)
Theorem C4_cache_hit_is_idempotent {X : Externals} (w : World) :
  lookup "PDFBOX" (environ w) = None ->
  jars_in (user_cache_dir w) (fs w) <> [] ->
  let first := _get_pdfbox_path w in
  let second := _get_pdfbox_path (snd first) in
  fst second = fst first /\
  requests (snd second) = requests w /\
  fs (snd second) = fs w /\
  ((forall p, In p (jars_in (user_cache_dir w) (fs w)) -> exists k, f p = inr k) ->
   exists p, fst first = inr p /\ fst second = inr p /\
             In p (jars_in (user_cache_dir w) (fs w))).
Proof.
  intros Henv Hne first second.
  assert (H1 : first = (latest f (jars_in (user_cache_dir w) (fs w)),
                        record (EGlob (user_cache_dir w)) w))
    by exact (ResolverFacts.cache_hit_branch w Henv Hne).
  assert (H2 : second = (latest f (jars_in (user_cache_dir w) (fs w)),
                         record (EGlob (user_cache_dir w))
                                (record (EGlob (user_cache_dir w)) w))).
  { unfold second. rewrite H1. simpl.
    exact (ResolverFacts.cache_hit_branch (record (EGlob (user_cache_dir w)) w) Henv Hne). }
  rewrite H1, H2. simpl. split; [reflexivity|]. split.
  { rewrite !ResolverFacts.requests_record. simpl. rewrite !app_nil_r. reflexivity. }
  split; [reflexivity|].
  intros Hall. destruct (LatestFacts.latest_returns f Hne Hall) as (p & Hp & Hin).
  exists p. auto.
Qed.

(** C4 at a cache that holds the jars of 2.9.0 and 2.10.0. *)
Lemma C4_cache_hit_is_idempotent_witness :
  let X := Demo.externals "00" in
  let jar := Demo.cache ++ "/pdfbox-app-2.10.0.jar" in
  let first := _get_pdfbox_path Demo.populated_cache in
  let second := _get_pdfbox_path (snd first) in
  lookup "PDFBOX" (environ Demo.populated_cache) = None /\
  fst first = inr jar /\ fst second = inr jar /\ requests (snd second) = [].
Proof.
  intros X jar first second. split; [reflexivity|].
  destruct (@C4_cache_hit_is_idempotent X Demo.populated_cache eq_refl)
    as (Hsame & Hreq & _ & _); [discriminate|].
  split; [reflexivity|]. split; [|exact Hreq].
  fold first second in Hsame. rewrite Hsame. reflexivity.
Defined.

(** C4 as stated fails on a cache that holds [pdfbox-app-2.0.19.jar]
    and [pdfbox-app-.jar]: the glob matches both, the pattern that extracts
    the version does not match the second, and no path is returned. *)
Lemma C4_odd_file_name_returns_no_path :
  let X := Demo.externals "00" in
  ~ (forall w : World,
        lookup "PDFBOX" (environ w) = None ->
        jars_in (user_cache_dir w) (fs w) <> [] ->
        exists p, fst (_get_pdfbox_path w) = inr p).
Proof.
  intros X H.
  destruct (H Demo.odd_cache eq_refl) as (p & Hp); [discriminate|].
  discriminate Hp.
Qed.

(** C5 (amended).  When the parser gets through a page, [p.result] is the
    list, in document order and with repetitions kept, of the [href] values
    of the [a] tags, stripped of slashes, in which the version pattern
    occurs.  When that list is empty the selection of the latest version
    raises [IndexError], and so does [_get_latest_pdfbox_url] once the page
    has been fetched and decoded. *)
Theorem C5_catalog_lists_matching_targets {X : Externals}
  (data : string) (result : list string) :
  feed data = inr result ->
  result = CatalogSpec.matching_targets (starttags data) /\
  (result = [] ->
   latest_version result = inl IndexError /\
   forall (w : World) (r : response) (d : Py.bytes),
     urlopen pdfbox_archive_url = Some r -> read r = Some d ->
     decode "utf-8" d = Some data ->
     fst (_get_latest_pdfbox_url w) = inl IndexError).
Proof.
  intros Hfeed. split; [exact (CatalogFacts.feed_spec _ Hfeed)|].
  intros ->. split; [reflexivity|].
  intros w r d Hr Hd Hdec.
  exact (CatalogFacts.empty_catalog_raises w Hr Hd Hdec Hfeed).
Qed.

(** C5 at a listing of three versions, a parent link and a key file. *)
Lemma C5_catalog_lists_matching_targets_witness :
  let X := Demo.externals "00" in
  feed Demo.archive_page = inr ["1.8.16"; "2.0.9"; "2.0.19"] /\
  CatalogSpec.matching_targets (starttags Demo.archive_page) =
    ["1.8.16"; "2.0.9"; "2.0.19"].
Proof.
  intros X.
  assert (H : feed Demo.archive_page = inr ["1.8.16"; "2.0.9"; "2.0.19"])
    by (vm_compute; reflexivity).
  split; [exact H|].
  destruct (@C5_catalog_lists_matching_targets X _ _ H) as [Heq _].
  symmetry. exact Heq.
Defined.

(** C5 as stated fails on a page that links a version twice: the parser
    keeps both occurrences. *)
Lemma C5_repeated_link_is_kept_twice :
  let X := Demo.externals "00" in
  ~ (forall (data : string) (result : list string),
        feed data = inr result -> NoDup result).
Proof.
  intros X H.
  assert (Hdup : NoDup ["2.0.19"; "2.0.19"]).
  { apply (H "<a href='2.0.19/'>2.0.19/</a><a href='/2.0.19'>latest</a>").
    vm_compute. reflexivity. }
  inversion Hdup as [|x l Hnotin _]. apply Hnotin. left. reflexivity.
Qed.

(** C8 (amended).  [_verify_sha512] succeeds on exactly one text, the
    hexadecimal SHA-512 digest of the data, and that text is lowercase: any
    other text is refused, the same digest in uppercase included. *)
Theorem C8_verify_sha512_is_exact_match (data : Py.bytes) (digest : string) :
  (_verify_sha512 data digest = true <-> digest = Sha512.hexdigest data) /\
  Py.lower (Sha512.hexdigest data) = Sha512.hexdigest data.
Proof.
  split; [|apply Sha512Facts.hexdigest_lower].
  unfold _verify_sha512. rewrite String.eqb_eq. split; congruence.
Qed.

(** C8 at the three bytes [abc]. *)
Lemma C8_verify_sha512_is_exact_match_witness :
  _verify_sha512 Demo.jar_bytes Demo.sha512_abc = true /\
  Py.lower Demo.sha512_abc = Demo.sha512_abc.
Proof.
  destruct (C8_verify_sha512_is_exact_match Demo.jar_bytes Demo.sha512_abc)
    as [[_ Hok] Hlow].
  assert (Heq : Demo.sha512_abc = Sha512.hexdigest Demo.jar_bytes)
    by (vm_compute; reflexivity).
  split; [exact (Hok Heq)|]. rewrite Heq. exact Hlow.
Defined.

(** C8 as stated fails on the digest of [abc] written in uppercase: it
    equals the computed digest up to case and is refused. *)
Lemma C8_uppercase_digest_is_refused :
  ~ (forall (data : Py.bytes) (digest : string),
        Py.lower digest = Sha512.hexdigest data ->
        _verify_sha512 data digest = true).
Proof.
  intros H.
  assert (Hv : _verify_sha512 Demo.jar_bytes Demo.sha512_abc_upper = true).
  { apply H. vm_compute. reflexivity. }
  vm_compute in Hv. discriminate Hv.
Qed.

(** ** Option strings and flag lists *)

Module CommandFacts.
Import Commands CommandSpec.

Lemma append_nil_r (s : string) : s ++ "" = s.
Proof. induction s as [|c s IH]; simpl; [reflexivity | rewrite IH; reflexivity]. Qed.

Lemma append_assoc (s t u : string) : (s ++ t) ++ u = s ++ t ++ u.
Proof. induction s as [|c s IH]; simpl; [reflexivity | rewrite IH; reflexivity]. Qed.

Lemma concat_app (l1 l2 : list string) :
  Py.concat (l1 ++ l2) = Py.concat l1 ++ Py.concat l2.
Proof.
  induction l1 as [|s l1 IH]; simpl; [reflexivity|].
  rewrite IH, append_assoc. reflexivity.
Qed.

(** A flag that is not given contributes nothing. *)
Lemma render_not_given (fl : flag) : flag_given fl = false -> render fl = "".
Proof. unfold render. intros ->. reflexivity. Qed.

Lemma serialize_given (l : list flag) : serialize (given l) = serialize l.
Proof.
  unfold serialize, given. induction l as [|fl l IH]; simpl; [reflexivity|].
  destruct (flag_given fl) eqn:Hg; simpl; rewrite IH; [reflexivity|].
  rewrite (render_not_given fl Hg). reflexivity.
Qed.

(** Each term of the option strings is the rendering of its flag. *)
Lemma render_valued_str (name : string) (v : option string) :
  render (valued_str name v) =
  match v with
  | Some s => if Py.truthy_str s then " -" ++ name ++ " " ++ s else ""
  | None => ""
  end.
Proof. destruct v as [[|c s]|]; reflexivity. Qed.

Lemma render_valued_int (name : string) (v : option Z) :
  render (valued_int name v) =
  match v with
  | Some n => if Py.truthy_int n then " -" ++ name ++ " " ++ Py.str_int n else ""
  | None => ""
  end.
Proof.
  destruct v as [n|]; [|reflexivity].
  unfold render, valued_int. simpl. destruct (Py.truthy_int n); reflexivity.
Qed.

Lemma render_valued_list (name : string) (v : option (list string)) :
  render (valued_list name v) =
  match v with
  | Some l => if Py.truthy_list l then " -" ++ name ++ " " ++ Py.join " " l else ""
  | None => ""
  end.
Proof. destruct v as [[|s l]|]; reflexivity. Qed.

Lemma render_toggle (name : string) (b : bool) :
  render (toggle name b) = if b then " -" ++ name else "".
Proof. destruct b; unfold render; simpl; [rewrite append_nil_r|]; reflexivity. Qed.

Ltac terms_are_renderings :=
  cbn [map];
  rewrite ?render_valued_str, ?render_valued_int, ?render_valued_list, ?render_toggle;
  reflexivity.

Lemma extract_text_terms_render (kw : extract_text_kwargs) :
  (extract_text_terms kw ++
   [if negb (Py.truthy_str (arg "" (et_output_path kw))) then " -console" else ""])%list =
  map render (extract_text_flags kw).
Proof. unfold extract_text_terms, extract_text_flags. terms_are_renderings. Qed.

Lemma split_file_terms_render (kw : split_file_kwargs) :
  split_file_terms kw = map render (split_file_flags kw).
Proof. unfold split_file_terms, split_file_flags. terms_are_renderings. Qed.

Lemma pdf_debugger_terms_render (kw : pdf_debugger_kwargs) :
  pdf_debugger_terms kw = map render (pdf_debugger_flags kw).
Proof.
  unfold pdf_debugger_terms, pdf_debugger_flags. cbn [map].
  rewrite render_valued_str, render_toggle.
  destruct (arg None (pd_view_structure kw)) as [[|]|]; reflexivity.
Qed.

Lemma to_image_terms_render (kw : to_image_kwargs) :
  to_image_terms kw = map render (to_image_flags kw).
Proof. unfold to_image_terms, to_image_flags. terms_are_renderings. Qed.

Lemma extract_text_options_concat (kw : extract_text_kwargs) :
  extract_text_options kw =
  Py.concat (extract_text_terms kw ++
             [if negb (Py.truthy_str (arg "" (et_output_path kw)))
              then " -console" else ""]).
Proof.
  unfold extract_text_options, extract_text_flag_options. rewrite concat_app.
  destruct (negb (Py.truthy_str (arg "" (et_output_path kw)))); simpl;
    [reflexivity | symmetry; apply append_nil_r].
Qed.

End CommandFacts.

(** ** The words of a command line *)

Module WordsFacts.
Import Resolver Commands CommandSpec Frame.

Lemma spaceless_by_computation (s : string) :
  forallb (fun c => negb (Ascii.eqb c " ")) (list_ascii_of_string s) = true ->
  spaceless s.
Proof.
  intros H c Hc Heq. rewrite forallb_forall in H. specialize (H c Hc).
  subst c. discriminate H.
Qed.

Lemma words_from_append (a b cur : string) :
  words_from (a ++ String " " b) cur = (words_from a cur ++ words b)%list.
Proof.
  revert cur. induction a as [|c a IH]; intros cur.
  - cbn [append words_from]. rewrite Ascii.eqb_refl. destruct cur; reflexivity.
  - change (String c a ++ String " " b) with (String c (a ++ String " " b)).
    cbn [words_from]. destruct (Ascii.eqb c " ").
    + destruct cur; rewrite IH; reflexivity.
    + apply IH.
Qed.

(** The words on both sides of a space. *)
Lemma words_append (a b : string) : words (a ++ " " ++ b) = (words a ++ words b)%list.
Proof. apply words_from_append. Qed.

Lemma words_from_spaceless (x cur : string) :
  spaceless x -> words_from x cur = words_from "" (cur ++ x).
Proof.
  revert cur. induction x as [|c x IH]; intros cur Hx.
  - rewrite CommandFacts.append_nil_r. reflexivity.
  - cbn [words_from].
    destruct (Ascii.eqb_spec c " ") as [->|_].
    + exfalso. apply (Hx " "%char); [left|]; reflexivity.
    + rewrite IH by (intros c' Hc'; apply Hx; right; exact Hc').
      rewrite CommandFacts.append_assoc. reflexivity.
Qed.

(** A word is its own single word. *)
Lemma words_word (x : string) : is_word x -> words x = [x].
Proof.
  intros [Hne Hx]. unfold words. rewrite (words_from_spaceless "" Hx).
  cbn [append words_from]. destruct x; [congruence | reflexivity].
Qed.

(** Joining words with spaces and splitting at spaces gives the words back. *)
Lemma words_join (l : list string) : Forall is_word l -> words (Py.join " " l) = l.
Proof.
  induction 1 as [|x l Hx Hl IH]; [reflexivity|].
  destruct l as [|y l]; [exact (words_word Hx)|].
  change (Py.join " " (x :: y :: l)) with (x ++ " " ++ Py.join " " (y :: l)).
  rewrite words_append, (words_word Hx), IH. reflexivity.
Qed.

Lemma words_space (t : string) : words (String " " t) = words t.
Proof. reflexivity. Qed.

(** The words of a text followed by nothing or by a space and more text. *)
Lemma words_before (b t : string) :
  t = "" \/ (exists t', t = String " " t') ->
  words (b ++ t) = (words b ++ words t)%list.
Proof.
  intros [->|(t' & ->)].
  - rewrite CommandFacts.append_nil_r. symmetry. apply app_nil_r.
  - rewrite words_space. apply words_from_append.
Qed.

Lemma serialize_shape (l : list flag) :
  serialize l = "" \/ exists t, serialize l = String " " t.
Proof.
  unfold serialize. induction l as [|fl l IH]; [left; reflexivity|].
  cbn [map Py.concat]. destruct (flag_given fl) eqn:Hg.
  - right. unfold render. rewrite Hg. eexists. reflexivity.
  - rewrite (CommandFacts.render_not_given fl Hg). exact IH.
Qed.

Lemma spaceless_dash (name : string) : spaceless name -> is_word (String "-" name).
Proof.
  intros Hn. split; [discriminate|].
  intros c [<-|Hc]; [discriminate | exact (Hn c Hc)].
Qed.

Lemma words_render_given (fl : flag) (rest : string) :
  flag_given fl = true -> spaceless (flag_name fl) ->
  rest = "" \/ (exists t, rest = String " " t) ->
  words (render fl ++ rest) =
  ((("-" ++ flag_name fl)%string ::
    match flag_value fl with Some v => words v | None => [] end) ++ words rest)%list.
Proof.
  intros Hg Hn Hrest. unfold render. rewrite Hg.
  pose proof (words_word (spaceless_dash Hn)) as Hdash.
  destruct (flag_value fl) as [v|].
  - change ((" -" ++ flag_name fl ++ " " ++ v) ++ rest)
      with (String " " ((String "-" (flag_name fl) ++ " " ++ v) ++ rest)).
    rewrite words_space, !CommandFacts.append_assoc, words_append, Hdash.
    rewrite (words_before v Hrest). reflexivity.
  - change ((" -" ++ flag_name fl ++ "") ++ rest)
      with (String " " ((String "-" (flag_name fl) ++ "") ++ rest)).
    rewrite words_space, CommandFacts.append_nil_r.
    rewrite (words_before (String "-" (flag_name fl)) Hrest), Hdash. reflexivity.
Qed.

(** The words of the option string are the tokens of the given flags. *)
Lemma words_serialize (l : list flag) :
  Forall (fun fl => spaceless (flag_name fl)) l ->
  words (serialize (given l)) = flag_tokens (given l).
Proof.
  induction 1 as [|fl l Hn _ IH]; [reflexivity|].
  unfold given. cbn [filter]. fold (given l).
  destruct (flag_given fl) eqn:Hg; [|exact IH].
  unfold serialize. cbn [map Py.concat]. fold (serialize (given l)).
  rewrite (words_render_given _ Hg Hn (serialize_shape (given l))), IH.
  reflexivity.
Qed.

Lemma flag_names_are_spaceless
  (ekw : extract_text_kwargs) (skw : split_file_kwargs)
  (dkw : pdf_debugger_kwargs) (ikw : to_image_kwargs) :
  Forall (fun fl => spaceless (flag_name fl)) (extract_text_flags ekw) /\
  Forall (fun fl => spaceless (flag_name fl)) (split_file_flags skw) /\
  Forall (fun fl => spaceless (flag_name fl)) (pdf_debugger_flags dkw) /\
  Forall (fun fl => spaceless (flag_name fl)) (to_image_flags ikw).
Proof.
  repeat split; repeat constructor; apply spaceless_by_computation; reflexivity.
Qed.

Lemma given_named (l : list flag) (x : string) :
  In x (map flag_name (given l)) ->
  exists fl, In fl l /\ flag_name fl = x /\ flag_given fl = true.
Proof.
  intros Hin. apply in_map_iff in Hin as (fl & Hname & Hfl).
  apply filter_In in Hfl as [Hfl Hgiven]. exists fl. auto.
Qed.

Lemma words_command (java jar sub a b : string) :
  words (java ++ " -jar " ++ jar ++ " " ++ sub ++ " " ++ a ++ " " ++ b) =
  (words java ++ "-jar" :: words jar ++ words sub ++ words a ++ words b)%list.
Proof.
  change (java ++ " -jar " ++ jar ++ " " ++ sub ++ " " ++ a ++ " " ++ b)
    with (java ++ " " ++ "-jar" ++ " " ++ jar ++ " " ++ sub ++ " " ++ a ++ " " ++ b).
  rewrite !words_append. reflexivity.
Qed.

Lemma to_image_cmd_serialized (self : PDFBox) (input_path : string)
  (kw : to_image_kwargs) :
  to_image_cmd self input_path kw =
  java_path self ++ " -jar " ++ pdfbox_path self ++ " PDFToImage " ++ input_path ++
  " " ++ serialize (given (to_image_flags kw)).
Proof.
  unfold to_image_cmd, to_image_options.
  rewrite CommandFacts.serialize_given. unfold serialize.
  rewrite <- CommandFacts.to_image_terms_render. reflexivity.
Qed.

Lemma to_image_cmd_words (self : PDFBox) (input_path : string)
  (kw : to_image_kwargs) :
  words (to_image_cmd self input_path kw) =
  (words (java_path self) ++ "-jar" :: words (pdfbox_path self) ++ "PDFToImage" ::
   words input_path ++ flag_tokens (given (to_image_flags kw)))%list.
Proof.
  destruct (flag_names_are_spaceless
              (Build_extract_text_kwargs None None None None None None None None None)
              (Build_split_file_kwargs None None None None)
              (Build_pdf_debugger_kwargs None None) kw) as (_ & _ & _ & Hnames).
  rewrite to_image_cmd_serialized.
  change (java_path self ++ " -jar " ++ pdfbox_path self ++ " PDFToImage " ++
          input_path ++ " " ++ serialize (given (to_image_flags kw)))
    with (java_path self ++ " -jar " ++ pdfbox_path self ++ " " ++ "PDFToImage" ++
          " " ++ input_path ++ " " ++ serialize (given (to_image_flags kw))).
  rewrite words_command, (words_serialize Hnames). reflexivity.
Qed.

Lemma extract_text_cmd_words (self : PDFBox) (input_path : string)
  (kw : extract_text_kwargs) :
  words (extract_text_cmd self input_path kw) =
  (words (java_path self) ++ "-jar" :: words (pdfbox_path self) ++ "ExtractText" ::
   flag_tokens (given (extract_text_flags kw)) ++ words input_path ++
   words (arg "" (et_output_path kw)))%list.
Proof.
  destruct (flag_names_are_spaceless kw
              (Build_split_file_kwargs None None None None)
              (Build_pdf_debugger_kwargs None None)
              (Build_to_image_kwargs None None None None None None None None None None))
    as (Hnames & _).
  unfold extract_text_cmd.
  rewrite CommandFacts.extract_text_options_concat,
    CommandFacts.extract_text_terms_render.
  fold (serialize (extract_text_flags kw)).
  rewrite <- CommandFacts.serialize_given.
  change (java_path self ++ " -jar " ++ pdfbox_path self ++ " ExtractText " ++
          serialize (given (extract_text_flags kw)) ++ " " ++ input_path ++ " " ++
          arg "" (et_output_path kw))
    with (java_path self ++ " " ++ "-jar" ++ " " ++ pdfbox_path self ++ " " ++
          "ExtractText" ++ " " ++ serialize (given (extract_text_flags kw)) ++ " " ++
          input_path ++ " " ++ arg "" (et_output_path kw)).
  rewrite !words_append, (words_serialize Hnames). reflexivity.
Qed.

Section Run.
Context {X : Externals}.

(** [_run_cmd] prints the fixed line and the command line and hands the
    command line to [sarge]; it returns [None] when [sarge] starts it. *)
Lemma run_cmd_outcome (cmd : string) (w : World) :
  trace (snd (_run_cmd cmd w)) =
    (trace w ++ [EPrint "PDFBox is running command: "; EPrint cmd; ESpawn cmd])%list /\
  fst (_run_cmd cmd w) = if sarge_starts cmd then inr tt else inl OSError.
Proof.
  unfold _run_cmd, print, spawn, bind, emit, ret, raise. cbn [fst snd].
  destruct (sarge_starts cmd); cbn [fst snd record trace];
    rewrite <- !app_assoc; split; reflexivity.
Qed.

Lemma extract_text_outcome (self : PDFBox) (input_path : string)
  (kw : extract_text_kwargs) (w : World) :
  trace (snd (extract_text self input_path kw w)) =
    (trace w ++ [EPrint "PDFBox is running command: ";
                 EPrint (extract_text_cmd self input_path kw);
                 ESpawn (extract_text_cmd self input_path kw)])%list /\
  fst (extract_text self input_path kw w) =
    if sarge_starts (extract_text_cmd self input_path kw)
    then inr (if negb (Py.truthy_str (arg "" (et_output_path kw)))
              then StdoutText (extract_text_cmd self input_path kw)
              else Pipeline (extract_text_cmd self input_path kw))
    else inl OSError.
Proof.
  unfold extract_text, print, spawn, bind, emit, ret, raise. cbn [fst snd].
  destruct (sarge_starts (extract_text_cmd self input_path kw));
    cbn [fst snd record trace];
    [destruct (negb (Py.truthy_str (arg "" (et_output_path kw))))|];
    cbn [fst snd record trace]; rewrite <- !app_assoc; split; reflexivity.
Qed.

End Run.
End WordsFacts.

Import Commands CommandSpec.

(** C6 (amended).  For each of [extract_text], [split_file], [pdf_debugger]
    and [to_image], the command line that is printed and handed to [sarge]
    consists, word by word, of the java path, [-jar], the jar path, the
    subcommand, and then the flags and the positional arguments ([ExtractText]
    and [PDFSplit]: flags before the input path; [PDFDebugger] and
    [PDFToImage]: flags after it).  The flags are those whose parameter is
    truthy once the defaults are applied, in the fixed order of the source,
    each as [-flagName] followed by the words of its value; a flag whose
    parameter is falsy puts nothing on the command line, and no flag has an
    empty name.  The defaults count: [start_page] of [extract_text] defaults
    to 1, [-console] is given when no output path is, and [to_image] lists
    [color] twice. *)
Theorem C6_options_render_given_flags_in_order {X : Externals}
  (self : PDFBox) (input_path : string) (w : World)
  (ekw : extract_text_kwargs) (skw : split_file_kwargs)
  (dkw : pdf_debugger_kwargs) (ikw : to_image_kwargs) :
  let java := java_path self in
  let jar := pdfbox_path self in
  let handed cmd w' :=
    trace w' = (trace w ++ [EPrint "PDFBox is running command: "; EPrint cmd;
                            ESpawn cmd])%list in
  (extract_text_cmd self input_path ekw =
     java ++ " -jar " ++ jar ++ " ExtractText " ++
     serialize (given (extract_text_flags ekw)) ++ " " ++ input_path ++ " " ++
     arg "" (et_output_path ekw) /\
   words (extract_text_cmd self input_path ekw) =
     (words java ++ "-jar" :: words jar ++ "ExtractText" ::
      flag_tokens (given (extract_text_flags ekw)) ++ words input_path ++
      words (arg "" (et_output_path ekw)))%list /\
   handed (extract_text_cmd self input_path ekw)
          (snd (extract_text self input_path ekw w))) /\
  (split_file_cmd self input_path skw =
     java ++ " -jar " ++ jar ++ " PDFSplit " ++
     serialize (given (split_file_flags skw)) ++ " " ++ input_path /\
   words (split_file_cmd self input_path skw) =
     (words java ++ "-jar" :: words jar ++ "PDFSplit" ::
      flag_tokens (given (split_file_flags skw)) ++ words input_path)%list /\
   handed (split_file_cmd self input_path skw)
          (snd (split_file self input_path skw w))) /\
  (pdf_debugger_cmd self input_path dkw =
     java ++ " -jar " ++ jar ++ " PDFDebugger " ++ input_path ++ " " ++
     serialize (given (pdf_debugger_flags dkw)) /\
   words (pdf_debugger_cmd self input_path dkw) =
     (words java ++ "-jar" :: words jar ++ "PDFDebugger" :: words input_path ++
      flag_tokens (given (pdf_debugger_flags dkw)))%list /\
   handed (pdf_debugger_cmd self input_path dkw)
          (snd (pdf_debugger self input_path dkw w))) /\
  (to_image_cmd self input_path ikw =
     java ++ " -jar " ++ jar ++ " PDFToImage " ++ input_path ++ " " ++
     serialize (given (to_image_flags ikw)) /\
   words (to_image_cmd self input_path ikw) =
     (words java ++ "-jar" :: words jar ++ "PDFToImage" :: words input_path ++
      flag_tokens (given (to_image_flags ikw)))%list /\
   handed (to_image_cmd self input_path ikw)
          (snd (to_image self input_path ikw w))) /\
  Forall (fun fl => flag_name fl <> "")
         (extract_text_flags ekw ++ split_file_flags skw ++
          pdf_debugger_flags dkw ++ to_image_flags ikw).
Proof.
  intros java jar handed.
  destruct (WordsFacts.flag_names_are_spaceless ekw skw dkw ikw)
    as (Hen & Hsn & Hdn & Hin).
  assert (He : extract_text_options ekw = serialize (given (extract_text_flags ekw))).
  { rewrite CommandFacts.serialize_given. unfold serialize.
    rewrite <- CommandFacts.extract_text_terms_render.
    apply CommandFacts.extract_text_options_concat. }
  assert (Hs : split_file_options skw = serialize (given (split_file_flags skw))).
  { rewrite CommandFacts.serialize_given. unfold serialize.
    rewrite <- CommandFacts.split_file_terms_render. reflexivity. }
  assert (Hd : pdf_debugger_options dkw = serialize (given (pdf_debugger_flags dkw))).
  { rewrite CommandFacts.serialize_given. unfold serialize.
    rewrite <- CommandFacts.pdf_debugger_terms_render. reflexivity. }
  assert (Hi : to_image_options ikw = serialize (given (to_image_flags ikw))).
  { rewrite CommandFacts.serialize_given. unfold serialize.
    rewrite <- CommandFacts.to_image_terms_render. reflexivity. }
  pose proof (proj1 (WordsFacts.extract_text_outcome self input_path ekw w)) as Te.
  pose proof (proj1 (WordsFacts.run_cmd_outcome (split_file_cmd self input_path skw) w)) as Ts.
  pose proof (proj1 (WordsFacts.run_cmd_outcome (pdf_debugger_cmd self input_path dkw) w)) as Td.
  pose proof (proj1 (WordsFacts.run_cmd_outcome (to_image_cmd self input_path ikw) w)) as Ti.
  split; [|split; [|split; [|split]]].
  - split; [|split; [|exact Te]];
      unfold extract_text_cmd; rewrite He; fold java jar; [reflexivity|].
    change (java ++ " -jar " ++ jar ++ " ExtractText " ++
            serialize (given (extract_text_flags ekw)) ++ " " ++ input_path ++ " " ++
            arg "" (et_output_path ekw))
      with (java ++ " " ++ "-jar" ++ " " ++ jar ++ " " ++ "ExtractText" ++ " " ++
            serialize (given (extract_text_flags ekw)) ++ " " ++ input_path ++ " " ++
            arg "" (et_output_path ekw)).
    rewrite !WordsFacts.words_append, (WordsFacts.words_serialize Hen). reflexivity.
  - split; [|split; [|exact Ts]];
      unfold split_file_cmd; rewrite Hs; fold java jar; [reflexivity|].
    change (java ++ " -jar " ++ jar ++ " PDFSplit " ++
            serialize (given (split_file_flags skw)) ++ " " ++ input_path)
      with (java ++ " " ++ "-jar" ++ " " ++ jar ++ " " ++ "PDFSplit" ++ " " ++
            serialize (given (split_file_flags skw)) ++ " " ++ input_path).
    rewrite !WordsFacts.words_append, (WordsFacts.words_serialize Hsn). reflexivity.
  - split; [|split; [|exact Td]];
      unfold pdf_debugger_cmd; rewrite Hd; fold java jar; [reflexivity|].
    change (java ++ " -jar " ++ jar ++ " PDFDebugger " ++ input_path ++ " " ++
            serialize (given (pdf_debugger_flags dkw)))
      with (java ++ " " ++ "-jar" ++ " " ++ jar ++ " " ++ "PDFDebugger" ++ " " ++
            input_path ++ " " ++ serialize (given (pdf_debugger_flags dkw))).
    rewrite !WordsFacts.words_append, (WordsFacts.words_serialize Hdn). reflexivity.
  - split; [|split; [|exact Ti]];
      unfold to_image_cmd; rewrite Hi; fold java jar; [reflexivity|].
    change (java ++ " -jar " ++ jar ++ " PDFToImage " ++ input_path ++ " " ++
            serialize (given (to_image_flags ikw)))
      with (java ++ " " ++ "-jar" ++ " " ++ jar ++ " " ++ "PDFToImage" ++ " " ++
            input_path ++ " " ++ serialize (given (to_image_flags ikw))).
    rewrite !WordsFacts.words_append, (WordsFacts.words_serialize Hin). reflexivity.
  - repeat constructor; discriminate.
Qed.

(** C6 at [to_image(input_path, dpi=24, color='gray', cropbox=[...])]. *)
Lemma C6_options_render_given_flags_in_order_witness :
  let X := Demo.externals "00" in
  words (to_image_cmd Demo.self "in.pdf" Demo.to_image_gray) =
    ["/usr/bin/java"; "-jar"; "/home/user/.cache/python-pdfbox/pdfbox-app-2.0.19.jar";
     "PDFToImage"; "in.pdf"; "-dpi"; "24"; "-color"; "gray"; "-cropbox"; "0"; "0";
     "10"; "10"; "-color"; "gray"] /\
  spawned (snd (to_image Demo.self "in.pdf" Demo.to_image_gray Demo.empty_cache)) =
    [to_image_cmd Demo.self "in.pdf" Demo.to_image_gray].
Proof.
  intros X.
  destruct (@C6_options_render_given_flags_in_order X Demo.self "in.pdf"
              Demo.empty_cache Demo.extract_text_to_file
              (Build_split_file_kwargs None None None None)
              (Build_pdf_debugger_kwargs None None)
              Demo.to_image_gray) as (_ & _ & _ & (_ & Hwords & Htrace) & _).
  split; [rewrite Hwords; reflexivity|].
  unfold spawned. rewrite Htrace. reflexivity.
Defined.

(** C6 as stated fails on [extract_text(input_path)]: [start_page] is not
    passed and [-startPage] is on the command line all the same. *)
Lemma C6_default_start_page_is_emitted :
  ~ (forall kw : extract_text_kwargs,
        et_start_page kw = None ->
        ~ In "-startPage" (words (extract_text_cmd Demo.self "in.pdf" kw))).
Proof.
  intros H. apply (H Demo.extract_text_plain eq_refl).
  vm_compute. do 4 right. left. reflexivity.
Qed.

(** C7.  [extract_text] prints the command line it built and hands it to
    [sarge].  When no output path is given, the command line carries
    [-console] after the flags and before the input path, and the text
    captured from the standard output of the pipeline is what the call
    returns; when an output path is given, the command line carries the
    flags alone, then the input and the output path, and the pipeline is
    what the call returns.  (The call returns when [sarge] starts the
    command and lets the exception of [sarge] through when it does not.) *)
Theorem C7_extract_text_dual_mode {X : Externals}
  (self : PDFBox) (input_path : string) (kw : extract_text_kwargs) (w : World) :
  let cmd := extract_text_cmd self input_path kw in
  let r := extract_text self input_path kw w in
  let java := java_path self in
  let jar := pdfbox_path self in
  let flags := extract_text_flag_options kw in
  let output_path := arg "" (et_output_path kw) in
  trace (snd r) =
    (trace w ++ [EPrint "PDFBox is running command: "; EPrint cmd; ESpawn cmd])%list /\
  (sarge_starts cmd = false -> fst r = inl OSError) /\
  (output_path = "" ->
   cmd = java ++ " -jar " ++ jar ++ " ExtractText " ++ flags ++ " -console" ++
         " " ++ input_path ++ " " /\
   words cmd = (words java ++ "-jar" :: words jar ++ "ExtractText" ::
                words flags ++ "-console" :: words input_path)%list /\
   (sarge_starts cmd = true -> fst r = inr (StdoutText cmd))) /\
  (output_path <> "" ->
   cmd = java ++ " -jar " ++ jar ++ " ExtractText " ++ flags ++ " " ++
         input_path ++ " " ++ output_path /\
   words cmd = (words java ++ "-jar" :: words jar ++ "ExtractText" ::
                words flags ++ words input_path ++ words output_path)%list /\
   (sarge_starts cmd = true -> fst r = inr (Pipeline cmd))).
Proof.
  intros cmd r java jar flags output_path.
  destruct (WordsFacts.extract_text_outcome self input_path kw w) as [Htrace Hout].
  fold cmd r output_path in Htrace, Hout.
  split; [exact Htrace|]. split; [intros Hs; rewrite Hout, Hs; reflexivity|].
  assert (Hcmd : cmd = java ++ " -jar " ++ jar ++ " ExtractText " ++
                       extract_text_options kw ++ " " ++ input_path ++ " " ++
                       output_path) by reflexivity.
  unfold extract_text_options in Hcmd. fold output_path flags in Hcmd.
  split.
  - intros Hnone. rewrite Hnone in Hcmd, Hout. cbn [Py.truthy_str negb] in Hcmd, Hout.
    rewrite CommandFacts.append_assoc in Hcmd.
    split; [exact Hcmd|]. split; [|intros Hs; rewrite Hout, Hs; reflexivity].
    rewrite Hcmd.
    match goal with
    | |- words ?t = _ =>
        change t
          with (java ++ " " ++ "-jar" ++ " " ++ jar ++ " " ++ "ExtractText" ++ " " ++
                flags ++ " " ++ "-console" ++ " " ++ input_path ++ " " ++ "")
    end.
    rewrite !WordsFacts.words_append.
    change (words "") with (@nil string). rewrite app_nil_r. reflexivity.
  - intros Hsome.
    assert (Ht : Py.truthy_str output_path = true)
      by (destruct output_path; [contradiction Hsome; reflexivity | reflexivity]).
    rewrite Ht in Hcmd, Hout. cbn [negb] in Hcmd, Hout.
    split; [exact Hcmd|]. split; [|intros Hs; rewrite Hout, Hs; reflexivity].
    rewrite Hcmd.
    match goal with
    | |- words ?t = _ =>
        change t
          with (java ++ " " ++ "-jar" ++ " " ++ jar ++ " " ++ "ExtractText" ++ " " ++
                flags ++ " " ++ input_path ++ " " ++ output_path)
    end.
    rewrite !WordsFacts.words_append. reflexivity.
Qed.

(** C7 at [extract_text('in.pdf')] and [extract_text('in.pdf', 'out.txt')]. *)
Lemma C7_extract_text_dual_mode_witness :
  let X := Demo.externals "00" in
  (words (extract_text_cmd Demo.self "in.pdf" Demo.extract_text_plain) =
     ["/usr/bin/java"; "-jar"; "/home/user/.cache/python-pdfbox/pdfbox-app-2.0.19.jar";
      "ExtractText"; "-startPage"; "1"; "-console"; "in.pdf"] /\
   fst (extract_text Demo.self "in.pdf" Demo.extract_text_plain Demo.empty_cache) =
     inr (StdoutText (extract_text_cmd Demo.self "in.pdf" Demo.extract_text_plain))) /\
  fst (extract_text Demo.self "in.pdf" Demo.extract_text_to_file Demo.empty_cache) =
    inr (Pipeline (extract_text_cmd Demo.self "in.pdf" Demo.extract_text_to_file)).
Proof.
  intros X.
  destruct (@C7_extract_text_dual_mode X Demo.self "in.pdf" Demo.extract_text_plain
              Demo.empty_cache) as (_ & _ & Hconsole & _).
  destruct (@C7_extract_text_dual_mode X Demo.self "in.pdf" Demo.extract_text_to_file
              Demo.empty_cache) as (_ & _ & _ & Hfile).
  destruct (Hconsole eq_refl) as (_ & Hwords & Hret).
  destruct Hfile as (_ & _ & Hpipe); [discriminate|].
  split; [split; [rewrite Hwords; reflexivity | exact (Hret eq_refl)]
         | exact (Hpipe eq_refl)].
Defined.

(** C9.  [merge] with fewer than two source files prints its message and
    returns [None]: nothing is raised and no process is started. *)
Theorem C9_merge_needs_two_sources {X : Externals}
  (self : PDFBox) (kw : merge_kwargs) (w : World) :
  (List.length (arg [] (mg_source_files kw)) < 2)%nat ->
  merge self kw w =
    (inr tt,
     record (EPrint "Not enough source files to merge.  Need to have at least 2 source files.") w) /\
  spawned (snd (merge self kw w)) = spawned w.
Proof.
  intros Hlen. unfold merge.
  destruct (Nat.ltb_spec (List.length (arg [] (mg_source_files kw))) 2) as [_|Hge];
    [|lia].
  unfold print, bind, emit, ret. simpl. split; [reflexivity|].
  rewrite ResolverFacts.spawned_record. simpl. apply app_nil_r.
Qed.

(** C9 at [merge(['only.pdf'])]. *)
Lemma C9_merge_needs_two_sources_witness :
  let X := Demo.externals "00" in
  (List.length (arg [] (mg_source_files Demo.merge_one)) < 2)%nat /\
  fst (merge Demo.self Demo.merge_one Demo.empty_cache) = inr tt /\
  spawned (snd (merge Demo.self Demo.merge_one Demo.empty_cache)) = [].
Proof.
  intros X.
  assert (Hlen : (List.length (arg [] (mg_source_files Demo.merge_one)) < 2)%nat)
    by (simpl; lia).
  split; [exact Hlen|].
  destruct (@C9_merge_needs_two_sources X Demo.self Demo.merge_one Demo.empty_cache Hlen)
    as [Hr Hs].
  split; [rewrite Hr; reflexivity | exact Hs].
Defined.

(** C10 (amended).  [to_image] with a non-empty [color] puts
    [-color <value>] on its command line twice: once after the flags that
    precede it, once more after [-cropbox], at the very end.  With [color]
    passed as the empty string (or not passed, or passed as [None]) the
    command line carries no [-color] at all.  [extract_text] with
    [start_page=0] (or [end_page=0]) builds the command line of the same call
    with [start_page=None] ([end_page=None]): no [-startPage] ([-endPage])
    is among the flags on it.  In every case that command line is the one
    printed and handed to [sarge]. *)
Theorem C10_color_twice_and_page_zero_omitted {X : Externals}
  (self : PDFBox) (input_path : string) (w : World) :
  let java := java_path self in
  let jar := pdfbox_path self in
  let handed cmd w' :=
    trace w' = (trace w ++ [EPrint "PDFBox is running command: "; EPrint cmd;
                            ESpawn cmd])%list in
  (forall kw : to_image_kwargs,
      let cmd := to_image_cmd self input_path kw in
      let before := firstn 7 (to_image_flags kw) in
      let cropbox := valued_list "cropbox" (arg None (ti_cropbox kw)) in
      handed cmd (snd (to_image self input_path kw w)) /\
      (forall c : string,
          ti_color kw = Some (Some c) -> c <> "" ->
          cmd = java ++ " -jar " ++ jar ++ " PDFToImage " ++ input_path ++ " " ++
                serialize (given before) ++ " -color " ++ c ++ render cropbox ++
                " -color " ++ c /\
          words cmd =
            (words java ++ "-jar" :: words jar ++ "PDFToImage" :: words input_path ++
             flag_tokens (given before) ++ "-color" :: words c ++
             flag_tokens (given [cropbox]) ++ "-color" :: words c)%list) /\
      (arg None (ti_color kw) = None \/ arg None (ti_color kw) = Some "" ->
       cmd = java ++ " -jar " ++ jar ++ " PDFToImage " ++ input_path ++ " " ++
             serialize (given before) ++ render cropbox /\
       words cmd =
         (words java ++ "-jar" :: words jar ++ "PDFToImage" :: words input_path ++
          flag_tokens (given before) ++ flag_tokens (given [cropbox]))%list)) /\
  (forall kw : extract_text_kwargs,
      let cmd := extract_text_cmd self input_path kw in
      let flags := given (extract_text_flags kw) in
      handed cmd (snd (extract_text self input_path kw w)) /\
      words cmd =
        (words java ++ "-jar" :: words jar ++ "ExtractText" :: flag_tokens flags ++
         words input_path ++ words (arg "" (et_output_path kw)))%list /\
      (et_start_page kw = Some (Some 0%Z) ->
       ~ In "startPage" (map flag_name flags) /\
       cmd = extract_text_cmd self input_path (with_start_page None kw)) /\
      (et_end_page kw = Some (Some 0%Z) ->
       ~ In "endPage" (map flag_name flags) /\
       cmd = extract_text_cmd self input_path (with_end_page None kw))).
Proof.
  intros java jar handed. split.
  - intros kw cmd before cropbox.
    split; [exact (proj1 (WordsFacts.run_cmd_outcome cmd w))|].
    pose proof (WordsFacts.to_image_cmd_serialized self input_path kw) as Hcmd.
    pose proof (WordsFacts.to_image_cmd_words self input_path kw) as Hwords.
    fold cmd java jar in Hcmd, Hwords.
    assert (Hbefore : forall color,
               to_image_flags kw =
               (before ++ [valued_str "color" color; cropbox; valued_str "color" color])%list ->
               given (to_image_flags kw) =
               (given before ++ given [valued_str "color" color] ++ given [cropbox] ++
                given [valued_str "color" color])%list).
    { intros color ->. unfold given. rewrite filter_app.
      change [valued_str "color" color; cropbox; valued_str "color" color]
        with ([valued_str "color" color] ++ [cropbox] ++ [valued_str "color" color])%list.
      rewrite !filter_app. reflexivity. }
    assert (Hcrop : serialize (given [cropbox]) = render cropbox).
    { rewrite CommandFacts.serialize_given. unfold serialize. cbn [map Py.concat].
      apply CommandFacts.append_nil_r. }
    split.
    + intros c Hc Hne.
      assert (Hg : given [valued_str "color" (Some c)] = [valued_str "color" (Some c)])
        by (destruct c; [contradiction Hne; reflexivity | reflexivity]).
      assert (Hflags : given (to_image_flags kw) =
                       (given before ++ [valued_str "color" (Some c)] ++
                        given [cropbox] ++ [valued_str "color" (Some c)])%list).
      { rewrite <- Hg at 1 2. apply Hbefore.
        unfold before, cropbox, to_image_flags. rewrite Hc. reflexivity. }
      rewrite Hflags in Hcmd, Hwords. split.
      * rewrite Hcmd. unfold serialize. rewrite !map_app, !CommandFacts.concat_app.
        fold (serialize (given before)) (serialize (given [cropbox])).
        rewrite Hcrop. cbn [map Py.concat render valued_str flag_given flag_name
                             flag_value arg].
        destruct c as [|a c]; [contradiction Hne; reflexivity|].
        cbn [Py.truthy_opt Py.truthy_str].
        rewrite !CommandFacts.append_assoc, !CommandFacts.append_nil_r. reflexivity.
      * rewrite Hwords. unfold flag_tokens. rewrite !flat_map_app.
        cbn [flat_map valued_str flag_name flag_value arg app].
        rewrite ?app_nil_r, <- ?app_assoc. reflexivity.
    + intros Hnone.
      assert (Hg : given [valued_str "color" (arg None (ti_color kw))] = [])
        by (destruct Hnone as [-> | ->]; reflexivity).
      assert (Hflags : given (to_image_flags kw) =
                       (given before ++ given [cropbox])%list).
      { rewrite (Hbefore (arg None (ti_color kw))); [|reflexivity].
        rewrite Hg, app_nil_r. reflexivity. }
      rewrite Hflags in Hcmd, Hwords. split.
      * rewrite Hcmd. unfold serialize. rewrite !map_app, !CommandFacts.concat_app.
        fold (serialize (given before)) (serialize (given [cropbox])).
        rewrite Hcrop. reflexivity.
      * rewrite Hwords. unfold flag_tokens. rewrite !flat_map_app. reflexivity.
  - intros kw cmd flags.
    split; [exact (proj1 (WordsFacts.extract_text_outcome self input_path kw w))|].
    split; [exact (WordsFacts.extract_text_cmd_words self input_path kw)|].
    split.
    + intros H. split.
      * intros Hin. apply (WordsFacts.given_named _ _) in Hin.
        destruct Hin as (fl & Hfl & Hname & Hgiven).
        unfold extract_text_flags in Hfl. rewrite H in Hfl. cbn [In] in Hfl.
        repeat (destruct Hfl as [<- | Hfl]; [discriminate|]). exact Hfl.
      * unfold cmd, extract_text_cmd, extract_text_options, extract_text_flag_options,
          extract_text_terms, with_start_page.
        cbn [et_output_path et_password et_encoding et_html et_sort et_ignore_beads
             et_start_page et_end_page et_always_next].
        rewrite H. reflexivity.
    + intros H. split.
      * intros Hin. apply (WordsFacts.given_named _ _) in Hin.
        destruct Hin as (fl & Hfl & Hname & Hgiven).
        unfold extract_text_flags in Hfl. rewrite H in Hfl. cbn [In] in Hfl.
        repeat (destruct Hfl as [<- | Hfl]; [discriminate|]). exact Hfl.
      * unfold cmd, extract_text_cmd, extract_text_options, extract_text_flag_options,
          extract_text_terms, with_end_page.
        cbn [et_output_path et_password et_encoding et_html et_sort et_ignore_beads
             et_start_page et_end_page et_always_next].
        rewrite H. reflexivity.
Qed.

(** C10 at [color='gray'] and at [start_page=0, end_page=0]. *)
Lemma C10_color_twice_and_page_zero_omitted_witness :
  let X := Demo.externals "00" in
  count_occ string_dec
    (words (to_image_cmd Demo.self "in.pdf" Demo.to_image_gray)) "-color" = 2%nat /\
  extract_text_cmd Demo.self "in.pdf" Demo.extract_text_to_file =
    "/usr/bin/java -jar /home/user/.cache/python-pdfbox/pdfbox-app-2.0.19.jar ExtractText  in.pdf out.txt".
Proof.
  intros X.
  destruct (@C10_color_twice_and_page_zero_omitted X Demo.self "in.pdf"
              Demo.empty_cache) as [Hcolor Hpage].
  destruct (Hcolor Demo.to_image_gray) as (_ & Hgray & _).
  destruct (Hgray "gray" eq_refl) as [_ Hwords]; [discriminate|].
  destruct (Hpage Demo.extract_text_to_file) as (_ & _ & Hstart & _).
  destruct (Hstart eq_refl) as [_ Hcmd].
  split; [rewrite Hwords; reflexivity | rewrite Hcmd; reflexivity].
Defined.

(** C10 as stated fails on [to_image('in.pdf', color='')]: a color is
    passed and no [-color] is on the command line. *)
Lemma C10_empty_color_is_not_emitted :
  ~ (forall (kw : to_image_kwargs) (c : string),
        ti_color kw = Some (Some c) ->
        count_occ string_dec (words (to_image_cmd Demo.self "in.pdf" kw)) "-color"
        = 2%nat).
Proof.
  intros H. specialize (H Demo.to_image_blank "" eq_refl).
  vm_compute in H. discriminate H.
Qed.

(* ================================================================== *)
(** * Further properties of the module *)
(* ================================================================== *)

(** ** The download branch *)

Module DownloadFacts.
Import Resolver.

Lemma lookup_store_same (p : string) (n : node) (l : list (string * node)) :
  lookup p (store p n l) = Some n.
Proof.
  induction l as [|[q m] l IH]; simpl.
  - rewrite String.eqb_refl. reflexivity.
  - destruct (String.eqb p q) eqn:E; simpl; rewrite E; [reflexivity | exact IH].
Qed.

Lemma lookup_store_other (p q : string) (n : node) (l : list (string * node)) :
  p <> q -> lookup p (store q n l) = lookup p l.
Proof.
  intros Hne. induction l as [|[q' m] l IH]; simpl.
  - destruct (String.eqb_spec p q); [congruence | reflexivity].
  - destruct (String.eqb_spec q q') as [<-|Hq]; simpl.
    + destruct (String.eqb_spec p q); [congruence | reflexivity].
    + destruct (String.eqb p q'); [reflexivity | exact IH].
Qed.

Lemma lookup_app_other (p q : string) (n : node) (l : list (string * node)) :
  p <> q -> lookup p (l ++ [(q, n)]) = lookup p l.
Proof.
  intros Hne. induction l as [|[q' m] l IH]; simpl.
  - destruct (String.eqb_spec p q); [congruence | reflexivity].
  - destruct (String.eqb p q'); [reflexivity | exact IH].
Qed.

Section Download.
Context {X : Externals}.

(** When the listing, the jar and the checksum file are all served, the jar
    is stored under the file name of its URL in the cache directory, the
    three URLs are opened in that order, and the call returns the path when
    the stripped checksum text is the digest of the jar and raises
    otherwise. *)
Theorem download_outcome
  (w : World) (r0 r1 r2 : response) (d0 body d2 : Py.bytes)
  (data text v : string) (result : list string) :
  lookup "PDFBOX" (environ w) = None ->
  jars_in (user_cache_dir w) (fs w) = [] ->
  urlopen pdfbox_archive_url = Some r0 -> read r0 = Some d0 ->
  decode "utf-8" d0 = Some data ->
  feed data = inr result -> latest_version result = inr v ->
  urlopen (artifact_url v) = Some r1 -> read r1 = Some body ->
  urlopen (artifact_url v ++ ".sha512") = Some r2 -> read r2 = Some d2 ->
  decode (match content_charset r2 with Some c => c | None => "utf-8" end) d2
    = Some text ->
  let path := user_cache_dir w ++ "/" ++ basename (artifact_url v) in
  let out := _get_pdfbox_path w in
  fst out = (if _verify_sha512 body (Py.strip text)
             then inr path
             else inl (RuntimeError "failed to verify sha512sum")) /\
  lookup path (fs (snd out)) = Some (File body) /\
  requests (snd out) =
    (requests w ++ [pdfbox_archive_url; artifact_url v;
                   (artifact_url v ++ ".sha512")%string])%list.
Proof.
  intros Henv Hjars Hr0 Hd0 Hdec Hfeed Hlatest Hr1 Hbody Hr2 Hd2 Htext path out.
  subst out path.
  unfold _get_pdfbox_path, bind, gets. rewrite Henv.
  unfold glob_jars, bind, emit, gets. cbn [fst snd fs record user_cache_dir].
  rewrite Hjars. cbn [Py.truthy_list].
  unfold _get_latest_pdfbox_url, do_urlopen, bind, emit, lift, ret.
  rewrite Hr0, Hd0, Hdec, Hfeed, Hlatest.
  set (url := artifact_url v) in *. clearbody url.
  rewrite Hr1, Hbody.
  unfold path_exists, mkdir, write_file, set_fs, bind, emit, gets, ret.
  cbn -[_verify_sha512 Py.strip basename String.append].
  destruct (present (user_cache_dir w) (fs w));
    cbn -[_verify_sha512 Py.strip basename String.append];
    rewrite Hr2, Hd2, Htext;
    destruct (_verify_sha512 body (Py.strip text));
    cbn -[basename String.append];
    (split; [reflexivity|]); (split; [apply lookup_store_same|]);
    unfold requests; cbn -[String.append]; rewrite !flat_map_app; cbn -[String.append];
    rewrite ?app_nil_r, <- ?app_assoc; reflexivity.
Qed.

End Download.
End DownloadFacts.

(** ** What the calls leave as it was *)

Module FrameFacts.
Import Resolver Frame.

Section Keeps.
Variable R : World -> World -> Prop.
Hypothesis R_refl : forall w, R w w.
Hypothesis R_trans : forall a b c, R a b -> R b c -> R a c.

Lemma keeps_ret (A : Type) (a : A) : keeps R (ret a).
Proof. intros w. apply R_refl. Qed.

Lemma keeps_raise (A : Type) (e : exn) : keeps R (raise (A := A) e).
Proof. intros w. apply R_refl. Qed.

Lemma keeps_lift (A : Type) (r : exn + A) : keeps R (lift r).
Proof. intros w. apply R_refl. Qed.

Lemma keeps_gets (A : Type) (g : World -> A) : keeps R (gets g).
Proof. intros w. apply R_refl. Qed.

Lemma keeps_bind (A B : Type) (m : M A) (k : A -> M B) :
  keeps R m -> (forall a, keeps R (k a)) -> keeps R (bind m k).
Proof.
  intros Hm Hk w. unfold bind. specialize (Hm w).
  destruct (m w) as [[e|a] w']; simpl in *; [exact Hm|].
  apply R_trans with w'; [exact Hm | apply Hk].
Qed.

End Keeps.

Lemma same_setting_refl (w : World) : same_setting w w.
Proof.
  repeat split. exists []. symmetry. apply app_nil_r.
Qed.

Lemma same_setting_trans (a b c : World) :
  same_setting a b -> same_setting b c -> same_setting a c.
Proof.
  intros (He & Hc & Hj & evs & Ht) (He' & Hc' & Hj' & evs' & Ht').
  repeat split; try congruence.
  exists (evs ++ evs')%list. rewrite Ht', Ht, app_assoc. reflexivity.
Qed.

Lemma same_setting_emit (e : event) : keeps same_setting (emit e).
Proof. intros w. repeat split. exists [e]. reflexivity. Qed.

Lemma same_setting_set_fs (f : list (string * node)) : keeps same_setting (set_fs f).
Proof.
  intros w. unfold set_fs. simpl. repeat split. exists []. simpl.
  symmetry. apply app_nil_r.
Qed.

Lemma same_files_refl (w : World) : same_files w w.
Proof. reflexivity. Qed.

Lemma same_files_trans (a b c : World) :
  same_files a b -> same_files b c -> same_files a c.
Proof. unfold same_files. congruence. Qed.

Lemma same_files_emit (e : event) : keeps same_files (emit e).
Proof. intros w. reflexivity. Qed.




(** ** The directories [mkdir] makes *)

Lemma split_last_spec (p d n : string) :
  Py.split_last p = Some (d, n) -> p = d ++ "/" ++ n.
Proof.
  revert d n. induction p as [|c p IH]; intros d n H; cbn [Py.split_last] in H;
    [discriminate|].
  destruct (Py.split_last p) as [[d' n']|].
  - injection H as <- <-. cbn [String.append]. f_equal. apply IH. reflexivity.
  - destruct (Ascii.eqb_spec c "/") as [->|_]; [|discriminate].
    injection H as <- <-. reflexivity.
Qed.

(** A path is its own parent, or its parent is a root, or it is its parent,
    a slash and a name. *)
Lemma parent_cases (p : string) :
  Py.parent (Py.parent p) = Py.parent p \/ exists n, p = Py.parent p ++ "/" ++ n.
Proof.
  destruct (Py.split_last p) as [[d n]|] eqn:E.
  - pose proof (split_last_spec _ E) as Hp.
    assert (Hpar : Py.parent p =
                   match n, d with
                   | "", _ => p
                   | _, "" => "/"
                   | _, "/" => "//"
                   | _, _ => d
                   end) by (unfold Py.parent; rewrite E; reflexivity).
    destruct n as [|c n'].
    + left. rewrite Hpar. exact Hpar.
    + destruct d as [|a d']; [left; rewrite Hpar; reflexivity|].
      destruct a as [[] [] [] [] [] [] [] []]; destruct d' as [|b d''];
        first [ left; rewrite Hpar; reflexivity
              | right; exists (String c n'); rewrite Hpar; exact Hp ].
  - assert (Hpar : Py.parent p = ".") by (unfold Py.parent; rewrite E; reflexivity).
    left. rewrite Hpar. reflexivity.
Qed.

(** Every directory [mkdir] makes is the one asked for or a missing
    directory above it. *)
Lemma made_dirs_spec (fuel : nat) :
  forall (p : string) (f : list (string * node)) (q : string),
    In q (made_dirs fuel p f) ->
    q = p \/ (present q f = false /\ exists rest, p = q ++ "/" ++ rest).
Proof.
  induction fuel as [|fuel IH]; intros p f q Hin; cbn [made_dirs] in Hin.
  - destruct Hin as [<-|[]]. left. reflexivity.
  - destruct (String.eqb (Py.parent (Py.parent p)) (Py.parent p)
              || present (Py.parent p) f) eqn:E.
    + destruct Hin as [<-|[]]. left. reflexivity.
    + apply orb_false_elim in E as [Hroot Hpres].
      apply in_app_or in Hin as [Hin|[<-|[]]]; [|left; reflexivity].
      right. destruct (parent_cases p) as [Hc|[n Hn]];
        [rewrite Hc, String.eqb_refl in Hroot; discriminate|].
      destruct (IH _ _ _ Hin) as [->|[Hq [rest Hrest]]].
      * split; [exact Hpres | exists n; exact Hn].
      * split; [exact Hq|]. exists (rest ++ "/" ++ n).
        etransitivity; [exact Hn|].
        rewrite Hrest, !CommandFacts.append_assoc. reflexivity.
Qed.

Lemma lookup_app (p : string) (a b : list (string * node)) :
  lookup p (a ++ b) =
  match lookup p a with
  | Some n => Some n
  | None => lookup p b
  end.
Proof.
  induction a as [|[q m] a IH]; cbn [app lookup]; [reflexivity|].
  destruct (String.eqb p q); [reflexivity | exact IH].
Qed.

Lemma lookup_made (p : string) (l : list string) (n : node) :
  lookup p (map (fun q => (q, Dir)) l) = Some n -> n = Dir /\ In p l.
Proof.
  induction l as [|q l IH]; cbn [map lookup]; [discriminate|].
  destruct (String.eqb_spec p q) as [->|_].
  - intros H. injection H as <-. split; [reflexivity | left; reflexivity].
  - intros H. destruct (IH H) as [-> Hin]. split; [reflexivity | right; exact Hin].
Qed.

Lemma strip_prefix_app (a b : string) : Py.strip_prefix a (a ++ b) = Some b.
Proof.
  induction a as [|c a IH]; simpl; [destruct b; reflexivity|].
  rewrite Ascii.eqb_refl. exact IH.
Qed.

Lemma untouched_mkdir (dir : string) : keeps (untouched_outside dir) (mkdir dir).
Proof.
  intros w p Hp _. unfold mkdir, set_fs, bind, emit, gets.
  cbn [fst snd fs record]. rewrite lookup_app.
  destruct (lookup p (fs w)) as [n|] eqn:E; [left; reflexivity|].
  destruct (lookup p (map (fun q => (q, Dir))
                          (made_dirs (String.length dir) dir (fs w))))
    as [n|] eqn:E'; [|left; reflexivity].
  apply lookup_made in E' as [-> Hin].
  destruct (made_dirs_spec _ _ _ _ Hin) as [->|[_ Hrest]];
    [contradiction Hp; reflexivity|].
  right. split; [exact Hrest|]. split; reflexivity.
Qed.

Lemma untouched_write_file (dir name : string) (data : Py.bytes) :
  keeps (untouched_outside dir) (write_file (dir ++ "/" ++ name) data).
Proof.
  intros w p _ Hpre.
  assert (Hne : p <> dir ++ "/" ++ name).
  { intros ->.
    rewrite <- CommandFacts.append_assoc, strip_prefix_app in Hpre. discriminate. }
  unfold write_file, set_fs, bind, emit, gets. simpl.
  left. apply DownloadFacts.lookup_store_other. exact Hne.
Qed.

Section Resolution.
Context {X : Externals}.

(** Steps through a computation built from the primitives of [M]. *)
Ltac keeps_step Rrefl Rtrans Remit :=
  repeat first
    [ apply untouched_mkdir
    | apply untouched_write_file
    | apply same_setting_set_fs
    | apply (keeps_bind Rtrans); [|intros]
    | apply (keeps_ret _ Rrefl)
    | apply (keeps_raise _ Rrefl)
    | apply (keeps_lift _ Rrefl)
    | apply (keeps_gets _ Rrefl)
    | apply Remit
    | match goal with
      | |- keeps _ (match ?x with _ => _ end) => destruct x
      end ].

Lemma same_setting_latest_url : keeps same_setting _get_latest_pdfbox_url.
Proof.
  unfold _get_latest_pdfbox_url, do_urlopen.
  keeps_step same_setting_refl same_setting_trans same_setting_emit.
Qed.

Lemma same_files_latest_url : keeps same_files _get_latest_pdfbox_url.
Proof.
  unfold _get_latest_pdfbox_url, do_urlopen.
  keeps_step same_files_refl same_files_trans same_files_emit.
Qed.

Lemma same_setting_resolution : keeps same_setting _get_pdfbox_path.
Proof.
  unfold _get_pdfbox_path, path_exists, glob_jars, mkdir, write_file, do_urlopen.
  keeps_step same_setting_refl same_setting_trans same_setting_emit;
    apply same_setting_latest_url.
Qed.


End Resolution.
End FrameFacts.

(** ** The listing and its parser *)

Module ListingFacts.
Import Resolver.

Lemma rstrip_idempotent (p : ascii -> bool) (s : string) :
  Py.rstrip p (Py.rstrip p s) = Py.rstrip p s.
Proof.
  induction s as [|c s IH]; [reflexivity|]. simpl.
  destruct (Py.rstrip p s) as [|c' r] eqn:Hr.
  - destruct (p c) eqn:Hc; simpl; [reflexivity | rewrite Hc; reflexivity].
  - change (Py.rstrip p (String c (String c' r)) = String c (String c' r)).
    cbn [Py.rstrip]. cbn [Py.rstrip] in IH. rewrite IH. reflexivity.
Qed.

Lemma rstrip_keeps_head (p : ascii -> bool) (c : ascii) (s : string) :
  p c = false -> Py.rstrip p (String c s) = String c (Py.rstrip p s).
Proof.
  intros Hc. simpl. destruct (Py.rstrip p s); [rewrite Hc|]; reflexivity.
Qed.

Lemma lstrip_head (p : ascii -> bool) (s : string) :
  Py.lstrip p s = "" \/ exists c t, Py.lstrip p s = String c t /\ p c = false.
Proof.
  induction s as [|c s IH]; simpl; [auto|].
  destruct (p c) eqn:Hc; [exact IH|]. right. eauto.
Qed.

(** Stripping twice strips no more than stripping once. *)
Lemma strip_char_idempotent (c : ascii) (s : string) :
  Py.strip_char c (Py.strip_char c s) = Py.strip_char c s.
Proof.
  unfold Py.strip_char.
  destruct (lstrip_head (Ascii.eqb c) s) as [->|(a & t & -> & Ha)]; [reflexivity|].
  rewrite (@rstrip_keeps_head (Ascii.eqb c) a t Ha). cbn [Py.lstrip]. rewrite Ha.
  rewrite (@rstrip_keeps_head (Ascii.eqb c) a _ Ha), rstrip_idempotent. reflexivity.
Qed.

Lemma In_href_targets (attrs : list (string * option string)) (s : string) :
  In s (CatalogSpec.href_targets attrs) ->
  Py.strip_char "/" s = s /\ Re.search Re.version_re s <> None.
Proof.
  unfold CatalogSpec.href_targets. rewrite in_flat_map.
  intros ([name value] & _ & Hin). simpl in Hin.
  destruct (String.eqb name "href"); [|destruct Hin].
  destruct value as [v|]; [|destruct Hin].
  destruct (Re.search Re.version_re (Py.strip_char "/" v)) eqn:Hs; [|destruct Hin].
  destruct Hin as [<-|[]].
  split; [apply strip_char_idempotent | congruence].
Qed.

Lemma handle_attrs_inl (attrs : list (string * option string)) (acc : list string)
  (e : exn) :
  handle_attrs attrs acc = inl e <-> e = AttributeError /\ In ("href", None) attrs.
Proof.
  revert acc. induction attrs as [|[name value] attrs IH]; intros acc; simpl.
  - split; [discriminate | intros [_ []]].
  - destruct (String.eqb_spec name "href") as [->|Hname].
    + destruct value as [v|].
      * destruct (Re.search Re.version_re (Py.strip_char "/" v)); rewrite IH;
          (split; [intros [He Hin]; auto | intros [He [Heq|Hin]]; [discriminate | auto]]).
      * split; [intros H; injection H as <-; auto | intros [-> _]; reflexivity].
    + rewrite IH. split; [intros [He Hin]; auto|].
      intros [He [Heq|Hin]]; [congruence | auto].
Qed.

Section Listing.
Context {X : Externals}.

(** Every entry of the catalog contains the version pattern and neither
    starts nor ends with a slash. *)
Theorem catalog_entries_are_stripped_matches (data : string) (result : list string) :
  feed data = inr result ->
  forall s, In s result ->
            Py.strip_char "/" s = s /\ Re.search Re.version_re s <> None.
Proof.
  intros Hfeed s Hs. rewrite (CatalogFacts.feed_spec _ Hfeed) in Hs.
  unfold CatalogSpec.matching_targets in Hs. apply in_flat_map in Hs.
  destruct Hs as ([tag attrs] & _ & Hin). simpl in Hin.
  destruct (String.eqb tag "a"); [|destruct Hin].
  exact (In_href_targets _ _ Hin).
Qed.

Lemma handle_all_inl (ts : list starttag) (acc : list string) (e : exn) :
  handle_all ts acc = inl e <->
  e = AttributeError /\ exists attrs, In ("a", attrs) ts /\ In ("href", None) attrs.
Proof.
  revert acc. induction ts as [|[tag attrs] ts IH]; intros acc; simpl.
  - split; [discriminate | intros [_ (attrs & [] & _)]].
  - unfold handle_starttag. simpl.
    destruct (String.eqb_spec tag "a") as [->|Htag].
    + destruct (handle_attrs attrs acc) as [e'|acc'] eqn:Ha.
      * apply handle_attrs_inl in Ha. destruct Ha as [-> Hin].
        split; [intros H; injection H as <-; split; [reflexivity | eauto]|].
        intros [-> _]. reflexivity.
      * rewrite IH. split.
        { intros [He (attrs' & Hin & Hnone)]. split; [exact He | eauto]. }
        intros [He (attrs' & [Heq|Hin] & Hnone)]; [|split; [exact He | eauto]].
        injection Heq as <-.
        assert (Hbad : handle_attrs attrs acc = inl AttributeError)
          by (apply handle_attrs_inl; auto).
        congruence.
    + rewrite IH. split.
      { intros [He (attrs' & Hin & Hnone)]. split; [exact He | eauto]. }
      intros [He (attrs' & [Heq|Hin] & Hnone)]; [congruence | split; [exact He | eauto]].
Qed.

(** The parser raises exactly when some [a] tag carries an [href] without
    a value, and the exception is then [AttributeError]. *)
Theorem feed_raises_on_valueless_href (data : string) (e : exn) :
  feed data = inl e <->
  e = AttributeError /\
  exists attrs, In ("a", attrs) (starttags data) /\ In ("href", None) attrs.
Proof. apply handle_all_inl. Qed.

End Listing.
End ListingFacts.

(** ** Finding the latest URL, and failing before the download *)

Module FetchFacts.
Import Resolver Frame.

Section Fetch.
Context {X : Externals}.

Lemma latest_inr_In (A : Type) (key : A -> exn + version) (l : list A) (m : A) :
  latest key l = inr m -> In m l.
Proof.
  unfold latest, Py.sorted.
  destruct (Py.decorate key l) as [e|d] eqn:Hd; [discriminate|].
  destruct (PyFacts.decorate_inr _ _ Hd) as [Hmap _].
  rewrite LatestFacts.last_opt_map.
  destruct (Py.last_opt (Py.sort_keyed version_le d)) as [[x k]|] eqn:Hlast;
    [|discriminate].
  simpl. intros H. injection H as <-. rewrite <- Hmap.
  apply (in_map fst d (x, k)). apply (PyFacts.In_sort_keyed version_le).
  destruct (Py.sort_keyed version_le d) as [|y l'] eqn:Hs; [discriminate|].
  destruct (PyFacts.last_opt_In (l := y :: l')) as (m0 & Hm0 & Hin0); [discriminate|].
  congruence.
Qed.

(** The world [_get_latest_pdfbox_url] leaves: one more URL opened. *)
Lemma latest_url_world (w : World) :
  snd (_get_latest_pdfbox_url w) = record (EUrlOpen pdfbox_archive_url) w.
Proof.
  unfold _get_latest_pdfbox_url, do_urlopen, bind, emit, lift, ret, raise.
  cbn [fst snd].
  destruct (urlopen pdfbox_archive_url) as [r|]; [|reflexivity].
  destruct (read r) as [d|]; [|reflexivity].
  destruct (decode "utf-8" d) as [data|]; [|reflexivity].
  destruct (feed data) as [e|result]; [reflexivity|].
  destruct (latest_version result); reflexivity.
Qed.

(** Its outcome is decided by the network and the parser, not by the world. *)
Lemma latest_url_outcome (w w0 : World) :
  fst (_get_latest_pdfbox_url w) = fst (_get_latest_pdfbox_url w0).
Proof.
  unfold _get_latest_pdfbox_url, do_urlopen, bind, emit, lift, ret, raise.
  cbn [fst snd].
  destruct (urlopen pdfbox_archive_url) as [r|]; [|reflexivity].
  destruct (read r) as [d|]; [|reflexivity].
  destruct (decode "utf-8" d) as [data|]; [|reflexivity].
  destruct (feed data) as [e|result]; [reflexivity|].
  destruct (latest_version result); reflexivity.
Qed.

(** When [_get_latest_pdfbox_url] returns, the URL is the jar of a version
    that an anchor of the fetched page links, and no other entry of the
    page that [parse_version] accepts is above it; the page is the only URL
    opened and no file is touched. *)
Theorem latest_url_is_a_listed_version (w : World) (u : string)
  (version_le_total :
     forall a b : version, version_le a b = true \/ version_le b a = true)
  (version_le_trans :
     forall a b c : version,
       version_le a b = true -> version_le b c = true -> version_le a c = true) :
  fst (_get_latest_pdfbox_url w) = inr u ->
  exists r d data v kv,
    urlopen pdfbox_archive_url = Some r /\ read r = Some d /\
    decode "utf-8" d = Some data /\
    In v (CatalogSpec.matching_targets (starttags data)) /\
    parse_version v = Some kv /\
    (forall s ks, In s (CatalogSpec.matching_targets (starttags data)) ->
                  parse_version s = Some ks -> version_le ks kv = true) /\
    u = artifact_url v /\
    requests (snd (_get_latest_pdfbox_url w)) = (requests w ++ [pdfbox_archive_url])%list /\
    fs (snd (_get_latest_pdfbox_url w)) = fs w.
Proof.
  intros Hu. rewrite latest_url_world, ResolverFacts.requests_record.
  revert Hu.
  unfold _get_latest_pdfbox_url, do_urlopen, bind, emit, lift, ret, raise.
  cbn [fst snd].
  destruct (urlopen pdfbox_archive_url) as [r|]; [|discriminate].
  destruct (read r) as [d|] eqn:Hd; [|discriminate].
  destruct (decode "utf-8" d) as [data|] eqn:Hdec; [|discriminate].
  destruct (feed data) as [e|result] eqn:Hfeed; [discriminate|].
  destruct (latest_version result) as [e|v] eqn:Hv; [discriminate|].
  cbn [fst]. intros H. injection H as <-.
  pose proof (CatalogFacts.feed_spec _ Hfeed) as Hres. subst result.
  pose proof (latest_inr_In _ _ Hv) as Hin.
  assert (Hall : forall s, In s (CatalogSpec.matching_targets (starttags data)) ->
                           exists k, version_key s = inr k).
  { intros s Hs. destruct (version_key s) as [e|k] eqn:Hk; [|eauto].
    destruct (LatestFacts.latest_raises version_key _ s Hs Hk) as (e' & He').
    unfold latest_version in Hv. congruence. }
  destruct (LatestFacts.latest_max version_key version_le_total version_le_trans
              (l := CatalogSpec.matching_targets (starttags data)))
    as (m & km & Hm & _ & Hkm & Hmax); [intros Hnil; rewrite Hnil in Hin; destruct Hin | exact Hall |].
  unfold latest_version in Hv. rewrite Hv in Hm. injection Hm as <-.
  exists r, d, data, v, km. repeat split; try reflexivity; try assumption.
  - unfold version_key in Hkm. destruct (parse_version v); congruence.
  - intros s ks Hs Hks. apply (Hmax s ks Hs). unfold version_key. rewrite Hks. reflexivity.
Qed.

(** With nothing cached, a listing that cannot be resolved, a jar URL that
    cannot be opened and a jar body that cannot be read each end the call
    with the corresponding exception and with every file as it was. *)
Theorem failed_fetch_leaves_files (w : World) :
  lookup "PDFBOX" (environ w) = None ->
  jars_in (user_cache_dir w) (fs w) = [] ->
  let out := _get_pdfbox_path w in
  (forall e, fst (_get_latest_pdfbox_url w) = inl e ->
             fst out = inl e /\ fs (snd out) = fs w) /\
  (forall url, fst (_get_latest_pdfbox_url w) = inr url -> urlopen url = None ->
               fst out = inl URLError /\ fs (snd out) = fs w) /\
  (forall url r, fst (_get_latest_pdfbox_url w) = inr url ->
                 urlopen url = Some r -> read r = None ->
                 fst out = inl (RuntimeError ("error retrieving " ++ url)) /\
                 fs (snd out) = fs w).
Proof.
  intros Henv Hjars out. subst out.
  unfold _get_pdfbox_path, bind, gets. rewrite Henv.
  unfold glob_jars, bind, emit, gets. cbn [fst snd fs record user_cache_dir].
  rewrite Hjars. cbn [Py.truthy_list].
  pose proof (latest_url_world (record (EGlob (user_cache_dir w)) w)) as Hw.
  pose proof (latest_url_outcome (record (EGlob (user_cache_dir w)) w) w) as Ho.
  destruct (_get_latest_pdfbox_url (record (EGlob (user_cache_dir w)) w)) as [o w1].
  cbn [fst snd] in Hw, Ho. subst w1. rewrite <- Ho.
  split; [|split].
  - intros e ->. split; reflexivity.
  - intros url -> Hopen. unfold do_urlopen, bind, emit, raise. cbn [fst snd].
    rewrite Hopen. split; reflexivity.
  - intros url r -> Hopen Hread. unfold do_urlopen, bind, emit, raise, ret.
    cbn [fst snd]. rewrite Hopen, Hread. split; reflexivity.
Qed.

(** [__init__] resolves the jar first and looks for [java] second: it
    fails with the exception of the resolution when there is one, with
    [RuntimeError('java not found')] when the resolution succeeds and
    [which] finds nothing, and otherwise returns both paths. *)
Theorem init_outcome (w : World) :
  fst (__init__ w) =
  match fst (_get_pdfbox_path w) with
  | inl e => inl e
  | inr p =>
      match which_java w with
      | Some (String c j) => inr (mkPDFBox p (String c j))
      | _ => inl (RuntimeError "java not found")
      end
  end.
Proof.
  unfold __init__, bind.
  pose proof (FrameFacts.same_setting_resolution w) as (_ & _ & Hj & _).
  destruct (_get_pdfbox_path w) as [[e|p] w']; cbn [fst snd] in *; [reflexivity|].
  unfold emit, gets. cbn [fst snd record which_java]. rewrite Hj.
  destruct (which_java w) as [[|c j]|]; reflexivity.
Qed.

End Fetch.
End FetchFacts.

(** ** The name of the cached jar, written and read back *)

Module NameFacts.
Import Resolver Frame.

Lemma has_slash_app (a b : string) :
  has_slash (a ++ b) = has_slash a || has_slash b.
Proof.
  unfold has_slash.
  induction a as [|c a IH]; cbn [append list_ascii_of_string existsb]; [reflexivity|].
  rewrite IH. apply orb_assoc.
Qed.

Lemma basename_after_slash (d name : string) :
  has_slash name = false -> basename (d ++ "/" ++ name) = name.
Proof.
  intros Hname. induction d as [|c d IH].
  - change ("" ++ "/" ++ name) with (String "/" name). cbn [basename].
    fold (has_slash name). rewrite Hname, Ascii.eqb_refl. reflexivity.
  - change (String c d ++ "/" ++ name) with (String c (d ++ "/" ++ name)).
    cbn [basename]. fold (has_slash (d ++ "/" ++ name)).
    rewrite has_slash_app, has_slash_app.
    replace (has_slash "/") with true by reflexivity.
    rewrite orb_true_r. exact IH.
Qed.

Lemma class_has_no_slash (v : string) :
  (forall c, In c (list_ascii_of_string v) -> Re.word_dot_dash c = true) ->
  has_slash v = false.
Proof.
  unfold has_slash.
  induction v as [|c v IH]; cbn [list_ascii_of_string existsb]; intros H;
    [reflexivity|].
  rewrite IH by (intros c' Hc'; apply H; right; exact Hc'). rewrite orb_false_r.
  destruct (Ascii.eqb_spec "/"%char c) as [<-|]; [|reflexivity].
  specialize (H "/"%char (or_introl eq_refl)). discriminate H.
Qed.

Lemma jar_name_has_no_slash (v : string) :
  has_slash v = false -> has_slash ("pdfbox-app-" ++ v ++ ".jar") = false.
Proof.
  intros Hv. rewrite !has_slash_app, Hv. reflexivity.
Qed.

(** The file name of the URL of version [v]. *)
Lemma basename_artifact_url (v : string) :
  has_slash v = false -> basename (artifact_url v) = "pdfbox-app-" ++ v ++ ".jar".
Proof.
  intros Hv. unfold artifact_url.
  rewrite <- CommandFacts.append_assoc.
  change ("/pdfbox-app-" ++ v ++ ".jar") with ("/" ++ "pdfbox-app-" ++ v ++ ".jar").
  apply basename_after_slash, jar_name_has_no_slash, Hv.
Qed.

Lemma greedy_star_any_finds (a b : string) (k : string -> option (list string))
  (r : list string) :
  k b = Some r -> exists r', Re.greedy_star Re.any (a ++ b) k = Some r'.
Proof.
  intros Hk. induction a as [|c a IH]; simpl.
  - destruct b as [|c b]; simpl; [eauto|].
    destruct (Re.greedy_star Re.any b k); [eauto | rewrite Hk; eauto].
  - destruct IH as (r' & ->). eauto.
Qed.

(** The glob finds every name of the form [pdfbox-app-<v>.jar]. *)
Lemma glob_matches_jar_name (v : string) :
  Re.glob_match ("pdfbox-app-" ++ v ++ ".jar") = true.
Proof.
  unfold Re.glob_match, Re.fullmatch, Re.jar_glob. cbn [Re.run].
  rewrite FrameFacts.strip_prefix_app.
  match goal with
  | |- context [Re.greedy_star Re.any (v ++ ".jar") ?k] =>
      destruct (@greedy_star_any_finds v ".jar" k []) as (r' & ->); reflexivity
  end.
Qed.

Lemma greedy_star_backs_off_to_suffix (v : string) (k : string -> option (list string))
  (r : list string) :
  (forall c, In c (list_ascii_of_string v) -> Re.word_dot_dash c = true) ->
  k "" = None -> k "r" = None -> k "ar" = None -> k "jar" = None ->
  k ".jar" = Some r ->
  Re.greedy_star Re.word_dot_dash (v ++ ".jar") k = Some r.
Proof.
  intros Hv H0 H1 H2 H3 H4. induction v as [|c v IH].
  - simpl. rewrite H0, H1, H2, H3, H4. reflexivity.
  - simpl. rewrite (Hv c (or_introl eq_refl)).
    change (String "." "jar") with ".jar". rewrite IH; [reflexivity|].
    intros c' Hc'. apply Hv. right. exact Hc'.
Qed.

Lemma length_append (a b : string) :
  String.length (a ++ b) = (String.length a + String.length b)%nat.
Proof. induction a as [|c a IH]; simpl; [reflexivity | rewrite IH; reflexivity]. Qed.

Lemma substring_prefix (a b : string) : substring 0 (String.length a) (a ++ b) = a.
Proof.
  induction a as [|c a IH]; simpl; [destruct b; reflexivity|].
  rewrite IH. reflexivity.
Qed.

Lemma consumed_prefix (a b : string) : Re.consumed (a ++ b) b = a.
Proof.
  unfold Re.consumed. rewrite length_append.
  replace (String.length a + String.length b - String.length b)%nat
    with (String.length a) by lia.
  apply substring_prefix.
Qed.

Lemma search_of_match (r : Re.regex) (s : string) (caps : list string) :
  Re.match_ r s = Some caps -> Re.search r s = Some caps.
Proof. intros H. destruct s; simpl; rewrite H; reflexivity. Qed.

(** The pattern of the cache scan reads the version back from the name. *)
Lemma jar_re_reads_version (v : string) :
  v <> "" ->
  (forall c, In c (list_ascii_of_string v) -> Re.word_dot_dash c = true) ->
  Re.search Re.jar_re ("pdfbox-app-" ++ v ++ ".jar") = Some [v].
Proof.
  intros Hne Hv. apply search_of_match.
  unfold Re.match_, Re.jar_re. cbn [Re.run].
  rewrite FrameFacts.strip_prefix_app.
  destruct v as [|c v]; [congruence|].
  unfold Re.greedy_plus.
  change (String c v ++ ".jar") with (String c (v ++ ".jar")) at 1.
  cbv beta iota. rewrite (Hv c (or_introl eq_refl)).
  apply greedy_star_backs_off_to_suffix; try reflexivity.
  - intros c' Hc'. apply Hv. right. exact Hc'.
  - cbn [Py.strip_prefix]. simpl Ascii.eqb. cbv iota.
    change (String c v ++ ".jar") with (String c v ++ ".jar").
    rewrite (consumed_prefix (String c v) ".jar"). reflexivity.
Qed.

Lemma lookup_In (A : Type) (p : string) (a : A) (l : list (string * A)) :
  lookup p l = Some a -> In (p, a) l.
Proof.
  induction l as [|[q b] l IH]; simpl; [discriminate|].
  destruct (String.eqb_spec p q) as [->|_].
  - intros H. injection H as <-. left. reflexivity.
  - intros H. right. exact (IH H).
Qed.

(** A jar stored under [dir] is among the files the scan of [dir] finds. *)
Lemma stored_jar_is_listed (dir v : string) (n : node) (files : list (string * node)) :
  has_slash v = false ->
  lookup (dir ++ "/" ++ "pdfbox-app-" ++ v ++ ".jar") files = Some n ->
  In (dir ++ "/" ++ "pdfbox-app-" ++ v ++ ".jar") (jars_in dir files).
Proof.
  intros Hv Hl. unfold jars_in.
  apply (in_map (fun n => dir ++ "/" ++ n) _ ("pdfbox-app-" ++ v ++ ".jar")).
  apply filter_In. split; [|apply glob_matches_jar_name].
  unfold listdir. apply in_flat_map.
  exists (dir ++ "/" ++ "pdfbox-app-" ++ v ++ ".jar", n).
  split; [exact (lookup_In _ _ Hl)|].
  cbn [fst]. unfold entry_name.
  rewrite <- (CommandFacts.append_assoc dir "/" ("pdfbox-app-" ++ v ++ ".jar")),
    FrameFacts.strip_prefix_app.
  fold (has_slash ("pdfbox-app-" ++ v ++ ".jar")).
  rewrite (jar_name_has_no_slash _ Hv). simpl. left. reflexivity.
Qed.

End NameFacts.

(** ** The cache scan after a download *)

Module RescanFacts.
Import Resolver Frame.


Lemma strip_prefix_longer (a b : string) (c : ascii) :
  Py.strip_prefix (a ++ String c b) a = None.
Proof.
  induction a as [|x a IH]; simpl; [reflexivity|].
  rewrite Ascii.eqb_refl. exact IH.
Qed.

Lemma jars_in_dir_itself (dir : string) (n : node) : jars_in dir [(dir, n)] = [].
Proof.
  unfold jars_in, listdir, entry_name. cbn [flat_map fst].
  rewrite strip_prefix_longer. reflexivity.
Qed.





Section Rescan.
Context {X : Externals}.

(** The name the download gives the jar of version [v] is matched by the
    glob of the scan, and the key function of the scan reads [v] back from
    it. *)
Theorem cached_name_round_trip (dir v : string) :
  v <> "" ->
  (forall c, In c (list_ascii_of_string v) -> Re.word_dot_dash c = true) ->
  basename (artifact_url v) = "pdfbox-app-" ++ v ++ ".jar" /\
  Re.glob_match (basename (artifact_url v)) = true /\
  f (dir ++ "/" ++ basename (artifact_url v)) = version_key v.
Proof.
  intros Hne Hv. pose proof (NameFacts.class_has_no_slash v Hv) as Hslash.
  rewrite (@NameFacts.basename_artifact_url v Hslash).
  split; [reflexivity|]. split; [apply NameFacts.glob_matches_jar_name|].
  unfold f.
  rewrite (@NameFacts.basename_after_slash dir _
             (@NameFacts.jar_name_has_no_slash v Hslash)).
  rewrite (@NameFacts.jar_re_reads_version v Hne Hv). reflexivity.
Qed.



End Rescan.
End RescanFacts.

(** ** Ties between versions *)

Module TieFacts.
Import Resolver.

Section Ties.
Variables (A K : Type) (le : K -> K -> bool).

Lemma insert_keyed_at_end (x : A * K) (l : list (A * K)) :
  (forall y, In y l -> le (snd x) (snd y) = false) ->
  Py.insert_keyed le x l = (l ++ [x])%list.
Proof.
  induction l as [|y l IH]; intros H; simpl; [reflexivity|].
  rewrite (H y (or_introl eq_refl)). rewrite IH; [reflexivity|].
  intros z Hz. apply H. right. exact Hz.
Qed.

Lemma last_opt_snoc (B : Type) (l : list B) (x : B) : Py.last_opt (l ++ [x]) = Some x.
Proof.
  induction l as [|y l IH]; [reflexivity|].
  change ((y :: l) ++ [x])%list with (y :: (l ++ [x]))%list.
  rewrite PyFacts.last_opt_cons; [exact IH | destruct l; discriminate].
Qed.

Lemma insert_keyed_keeps_last (x m : A * K) (l : list (A * K)) :
  Py.last_opt l = Some m -> le (snd x) (snd m) = true ->
  Py.last_opt (Py.insert_keyed le x l) = Some m.
Proof.
  induction l as [|y l IH]; intros Hlast Hle; [discriminate|].
  simpl. destruct (le (snd x) (snd y)) eqn:Hxy.
  - rewrite PyFacts.last_opt_cons by discriminate. exact Hlast.
  - destruct l as [|y' l'].
    + simpl in Hlast. injection Hlast as <-. congruence.
    + rewrite PyFacts.last_opt_cons by apply PyFacts.insert_keyed_not_nil.
      apply IH; [exact Hlast | exact Hle].
Qed.

(** An element that nothing before it exceeds and that exceeds everything
    after it ends up last. *)
Lemma sort_keyed_last_of_maxima (d1 d2 : list (A * K)) (m : A * K) :
  (forall y, In y d1 -> le (snd y) (snd m) = true) ->
  (forall y, In y d2 -> le (snd m) (snd y) = false) ->
  Py.last_opt (Py.sort_keyed le (d1 ++ m :: d2)) = Some m.
Proof.
  intros Hbefore Hafter. induction d1 as [|x d1 IH].
  - cbn [app Py.sort_keyed]. rewrite insert_keyed_at_end; [apply last_opt_snoc|].
    intros y Hy. apply Hafter. apply (PyFacts.In_sort_keyed le). exact Hy.
  - cbn [app Py.sort_keyed]. apply insert_keyed_keeps_last.
    + apply IH. intros y Hy. apply Hbefore. right. exact Hy.
    + apply Hbefore. left. reflexivity.
Qed.

Lemma decorate_app (E : Type) (key : A -> E + K) (a b : list A) :
  Py.decorate key (a ++ b) =
  match Py.decorate key a with
  | inl e => inl e
  | inr da =>
      match Py.decorate key b with
      | inl e => inl e
      | inr db => inr (da ++ db)%list
      end
  end.
Proof.
  induction a as [|x a IH]; simpl.
  - destruct (Py.decorate key b); reflexivity.
  - destruct (key x); [reflexivity|]. rewrite IH.
    destruct (Py.decorate key a); [reflexivity|].
    destruct (Py.decorate key b); reflexivity.
Qed.

End Ties.

Section Latest.
Context {X : Externals}.

(** Among entries of equal, highest version the one listed last is
    selected: an entry is returned when every key can be computed, no entry
    before it has a higher key and every entry after it has a lower one. *)
Theorem latest_picks_last_maximum (A : Type) (key : A -> exn + version)
  (l1 l2 : list A) (m : A) (km : version) :
  (forall x, In x (l1 ++ m :: l2) -> exists k, key x = inr k) ->
  key m = inr km ->
  (forall y ky, In y l1 -> key y = inr ky -> version_le ky km = true) ->
  (forall y ky, In y l2 -> key y = inr ky -> version_le km ky = false) ->
  latest key (l1 ++ m :: l2) = inr m.
Proof.
  intros Hall Hm Hbefore Hafter. unfold latest, Py.sorted.
  rewrite decorate_app. cbn [Py.decorate]. rewrite Hm.
  destruct (PyFacts.decorate_total key l1) as (d1 & Hd1).
  { intros x Hx. apply Hall. apply in_or_app. left. exact Hx. }
  destruct (PyFacts.decorate_total key l2) as (d2 & Hd2).
  { intros x Hx. apply Hall. apply in_or_app. right. right. exact Hx. }
  rewrite Hd1, Hd2.
  destruct (PyFacts.decorate_inr _ _ Hd1) as [Hmap1 Hkeys1].
  destruct (PyFacts.decorate_inr _ _ Hd2) as [Hmap2 Hkeys2].
  rewrite LatestFacts.last_opt_map.
  rewrite (@sort_keyed_last_of_maxima _ _ version_le d1 d2 (m, km)); [reflexivity| |].
  - intros [y ky] Hy. cbn [snd]. apply (Hbefore y ky); [|exact (Hkeys1 _ _ Hy)].
    rewrite <- Hmap1. exact (in_map fst _ _ Hy).
  - intros [y ky] Hy. cbn [snd]. apply (Hafter y ky); [|exact (Hkeys2 _ _ Hy)].
    rewrite <- Hmap2. exact (in_map fst _ _ Hy).
Qed.

End Latest.
End TieFacts.

(** ** The shape of an accepted checksum *)

Module ChecksumFacts.
Import Resolver.
Local Open Scope Z_scope.

Lemma be_bytes_length (n : nat) (x : Z) : List.length (Sha512.be_bytes n x) = n.
Proof.
  revert x. induction n as [|n IH]; intros x; simpl; [reflexivity|].
  rewrite length_app, IH. simpl. lia.
Qed.

Lemma digest_length (data : Py.bytes) : List.length (Sha512.digest data) = 64%nat.
Proof.
  unfold Sha512.digest. cbn [flat_map]. rewrite !length_app, !be_bytes_length.
  reflexivity.
Qed.

Lemma hex_of_bytes_length (bs : list Z) :
  String.length (Sha512.hex_of_bytes bs) = (2 * List.length bs)%nat.
Proof. induction bs as [|b bs IH]; simpl; [reflexivity | rewrite IH; lia]. Qed.

Lemma hex_digit_char (n : Z) :
  0 <= n < 16 -> In (Sha512.hex_digit n) (list_ascii_of_string "0123456789abcdef").
Proof.
  intros H. replace n with (Z.of_nat (Z.to_nat n)) by lia.
  assert (Hk : (Z.to_nat n < 16)%nat) by lia.
  revert Hk. generalize (Z.to_nat n) as k. intros k Hk.
  do 16 (destruct k as [|k]; [vm_compute; tauto|]). lia.
Qed.

Lemma hex_of_bytes_chars (bs : list Z) (c : ascii) :
  Forall Sha512.is_byte bs ->
  In c (list_ascii_of_string (Sha512.hex_of_bytes bs)) ->
  In c (list_ascii_of_string "0123456789abcdef").
Proof.
  induction 1 as [|b bs Hb _ IH]; [intros []|].
  unfold Sha512.is_byte in Hb. cbn [Sha512.hex_of_bytes list_ascii_of_string].
  intros [<-|[<-|Hin]]; [| |exact (IH Hin)]; apply hex_digit_char.
  - split; [apply Z.div_pos; lia | apply Z.div_lt_upper_bound; lia].
  - apply Z.mod_pos_bound. lia.
Qed.

(** A checksum text that [_verify_sha512] accepts is 128 characters long
    and made of the digits and the lowercase letters [a] to [f]. *)
Theorem accepted_checksum_is_128_hex_digits (data : Py.bytes) (digest : string) :
  _verify_sha512 data digest = true ->
  String.length digest = 128%nat /\
  forall c, In c (list_ascii_of_string digest) ->
            In c (list_ascii_of_string "0123456789abcdef").
Proof.
  unfold _verify_sha512. rewrite String.eqb_eq. intros <-.
  unfold Sha512.hexdigest. split.
  - rewrite hex_of_bytes_length, digest_length. reflexivity.
  - intros c. apply hex_of_bytes_chars, Sha512Facts.digest_range.
Qed.

End ChecksumFacts.

(** ** Running the commands *)

Module RunFacts.
Import Resolver Commands CommandSpec Frame.

(** When neither the two paths of the facade nor the source files nor the
    target contain a space or are empty, the command line of [merge] splits
    at its spaces into [java -jar <jar> PDFMerger], the source files in the
    order given, and the target. *)
Theorem merge_command_words (self : PDFBox) (kw : merge_kwargs) :
  is_word (java_path self) -> is_word (pdfbox_path self) ->
  Forall is_word (arg [] (mg_source_files kw)) ->
  is_word (arg "merged.pdf" (mg_target_file kw)) ->
  words (merge_cmd self kw) =
  ([java_path self; "-jar"; pdfbox_path self; "PDFMerger"] ++
   arg [] (mg_source_files kw) ++ [arg "merged.pdf" (mg_target_file kw)])%list.
Proof.
  intros Hj Hp Hs Ht. unfold merge_cmd.
  change (java_path self ++ " -jar " ++ pdfbox_path self ++ " PDFMerger " ++
          Py.join " " (arg [] (mg_source_files kw)) ++ " " ++
          arg "merged.pdf" (mg_target_file kw))
    with (java_path self ++ " " ++ "-jar" ++ " " ++ pdfbox_path self ++ " " ++
          "PDFMerger" ++ " " ++ Py.join " " (arg [] (mg_source_files kw)) ++ " " ++
          arg "merged.pdf" (mg_target_file kw)).
  rewrite !WordsFacts.words_append, (WordsFacts.words_word Hj),
    (WordsFacts.words_word Hp), (WordsFacts.words_word Ht), (WordsFacts.words_join Hs).
  reflexivity.
Qed.

End RunFacts.

(** ** The further properties at concrete inputs *)

(** The download with a mirror whose checksum file carries the digest. *)
Lemma download_outcome_witness :
  let X := Scenario.good_mirror in
  fst (_get_pdfbox_path Demo.empty_cache) = inr (Demo.cache ++ "/pdfbox-app-2.0.19.jar") /\
  requests (snd (_get_pdfbox_path Demo.empty_cache)) =
    [pdfbox_archive_url; Demo.jar_url; Demo.jar_url ++ ".sha512"].
Proof.
  intros X.
  destruct (@DownloadFacts.download_outcome X Demo.empty_cache
              (Demo.text_response Demo.archive_page)
              (mkResponse (Some Demo.jar_bytes) None)
              (Demo.text_response (Demo.sha512_abc ++ String (ascii_of_nat 10) ""))
              (bytes_of_string Demo.archive_page) Demo.jar_bytes
              (bytes_of_string (Demo.sha512_abc ++ String (ascii_of_nat 10) ""))
              Demo.archive_page (Demo.sha512_abc ++ String (ascii_of_nat 10) "")
              "2.0.19" ["1.8.16"; "2.0.9"; "2.0.19"]
              eq_refl eq_refl eq_refl eq_refl eq_refl eq_refl eq_refl eq_refl
              eq_refl eq_refl eq_refl eq_refl) as (Hout & _ & Hreq).
  split; [rewrite Hout; vm_compute; reflexivity | exact Hreq].
Defined.


(** Nothing cached and no network. *)
Lemma failed_fetch_leaves_files_witness :
  let X := Scenario.offline in
  fst (_get_pdfbox_path Demo.empty_cache) = inl URLError /\
  fs (snd (_get_pdfbox_path Demo.empty_cache)) = fs Demo.empty_cache.
Proof.
  intros X.
  destruct (@FetchFacts.failed_fetch_leaves_files X Demo.empty_cache eq_refl eq_refl)
    as (Hlisting & _ & _).
  exact (Hlisting URLError eq_refl).
Defined.

(** The listing of the example mirror. *)
Lemma latest_url_is_a_listed_version_witness :
  let X := Demo.externals "00" in
  fst (_get_latest_pdfbox_url Demo.empty_cache) = inr Demo.jar_url /\
  requests (snd (_get_latest_pdfbox_url Demo.empty_cache)) = [pdfbox_archive_url] /\
  fs (snd (_get_latest_pdfbox_url Demo.empty_cache)) = fs Demo.empty_cache.
Proof.
  intros X.
  assert (Hu : fst (_get_latest_pdfbox_url Demo.empty_cache) = inr Demo.jar_url)
    by (vm_compute; reflexivity).
  destruct (@FetchFacts.latest_url_is_a_listed_version X Demo.empty_cache Demo.jar_url
              DemoFacts.release_le_total DemoFacts.release_le_trans Hu)
    as (_ & _ & _ & _ & _ & _ & _ & _ & _ & _ & _ & _ & Hreq & Hfs).
  split; [exact Hu|]. split; [exact Hreq | exact Hfs].
Defined.

(** The entries of the example listing. *)
Lemma catalog_entries_are_stripped_matches_witness :
  let X := Demo.externals "00" in
  feed Demo.archive_page = inr ["1.8.16"; "2.0.9"; "2.0.19"] /\
  Py.strip_char "/" "2.0.19" = "2.0.19" /\
  Re.search Re.version_re "2.0.19" <> None.
Proof.
  intros X.
  assert (H : feed Demo.archive_page = inr ["1.8.16"; "2.0.9"; "2.0.19"])
    by (vm_compute; reflexivity).
  split; [exact H|].
  apply (@ListingFacts.catalog_entries_are_stripped_matches X _ _ H "2.0.19").
  right. right. left. reflexivity.
Defined.

(** A page with an [href] that has no value. *)
Lemma feed_raises_on_valueless_href_witness :
  let X := Scenario.broken_page in
  feed "any page" = inl AttributeError.
Proof.
  intros X.
  apply (@ListingFacts.feed_raises_on_valueless_href X "any page" AttributeError).
  split; [reflexivity|].
  exists [("class", Some "x"); ("href", None)].
  split; [right; left; reflexivity | right; left; reflexivity].
Defined.

Lemma class_by_computation (v : string) :
  forallb Re.word_dot_dash (list_ascii_of_string v) = true ->
  forall c, In c (list_ascii_of_string v) -> Re.word_dot_dash c = true.
Proof. intros H. exact (proj1 (forallb_forall _ _) H). Qed.

(** The jar of version 2.0.19. *)
Lemma cached_name_round_trip_witness :
  let X := Demo.externals "00" in
  basename (artifact_url "2.0.19") = "pdfbox-app-2.0.19.jar" /\
  Re.glob_match (basename (artifact_url "2.0.19")) = true /\
  f (Demo.cache ++ "/" ++ basename (artifact_url "2.0.19")) = inr [2; 0; 19]%N.
Proof.
  intros X.
  destruct (@RescanFacts.cached_name_round_trip X Demo.cache "2.0.19")
    as (Hname & Hglob & Hf).
  - discriminate.
  - apply class_by_computation. reflexivity.
  - split; [exact Hname|]. split; [exact Hglob|]. rewrite Hf. reflexivity.
Defined.


(** Versions 2.10.0 and 2.10 are equal; the one listed last is selected. *)
Lemma latest_picks_last_maximum_witness :
  let X := Demo.externals "00" in
  latest version_key ["2.9.0"; "2.10.0"; "2.10"; "1.8.16"] = inr "2.10".
Proof.
  intros X.
  apply (@TieFacts.latest_picks_last_maximum X string version_key
           ["2.9.0"; "2.10.0"] ["1.8.16"] "2.10" [2; 10]%N).
  - intros x [<-|[<-|[<-|[<-|[]]]]]; eexists; reflexivity.
  - reflexivity.
  - intros y ky [<-|[<-|[]]] H; vm_compute in H; injection H as <-; reflexivity.
  - intros y ky [<-|[]] H; vm_compute in H; injection H as <-; reflexivity.
Defined.

(** The digest of [abc]. *)
Lemma accepted_checksum_is_128_hex_digits_witness :
  _verify_sha512 Demo.jar_bytes Demo.sha512_abc = true /\
  String.length Demo.sha512_abc = 128%nat.
Proof.
  assert (H : _verify_sha512 Demo.jar_bytes Demo.sha512_abc = true)
    by (vm_compute; reflexivity).
  split; [exact H|].
  exact (proj1 (ChecksumFacts.accepted_checksum_is_128_hex_digits _ _ H)).
Defined.

(** The command line of that call. *)
Lemma merge_command_words_witness :
  CommandSpec.words (Commands.merge_cmd Demo.self Scenario.merge_two) =
  ["/usr/bin/java"; "-jar"; "/home/user/.cache/python-pdfbox/pdfbox-app-2.0.19.jar";
   "PDFMerger"; "a.pdf"; "b.pdf"; "out.pdf"].
Proof.
  rewrite (@RunFacts.merge_command_words Demo.self Scenario.merge_two).
  - reflexivity.
  - split; [discriminate | apply WordsFacts.spaceless_by_computation; reflexivity].
  - split; [discriminate | apply WordsFacts.spaceless_by_computation; reflexivity].
  - repeat constructor; try discriminate; apply WordsFacts.spaceless_by_computation; reflexivity.
  - split; [discriminate | apply WordsFacts.spaceless_by_computation; reflexivity].
Defined.

(** ** The cache is trusted by name *)

Module TrustFacts.
Import Resolver.


Section Trust.
Context {X : Externals}.


End Trust.
End TrustFacts.


(** The override names a file that exists and [java] is not installed. *)
Lemma init_outcome_witness :
  let X := Demo.externals "00" in
  fst (__init__ Scenario.no_java) = inl (RuntimeError "java not found").
Proof.
  intros X. rewrite (@FetchFacts.init_outcome X Scenario.no_java). reflexivity.
Defined.
